(** * Resume builder backend: text linearizer, exporters and suggestions

    A shallow embedding of [src/main.py].  Python strings are sequences of
    Unicode code points, request records are Rocq records, the [parts] list
    that [_format_text_resume] grows by [append] is a list built section by
    section, and the calls the exporters make on the document libraries are
    recorded as a trace of operations. *)

From Stdlib Require Import NArith ZArith Strings.String Strings.Ascii Strings.Byte.
From stdpp Require Import base list gmap.

Local Open Scope N_scope.

(** ** Python strings *)

(** A [str] is a sequence of code points (each below [0x110000]). *)
Definition pystr : Type := list N.

(** An ASCII literal as a [str]. *)
Definition py (s : string) : pystr :=
  List.map N_of_ascii (list_ascii_of_string s).

(** Truth value of a string: [bool(s)], false only for the empty one. *)
Definition truthy (s : pystr) : bool :=
  match s with
  | [] => false
  | _ :: _ => true
  end.

(** [x or d] on strings. *)
Definition str_or (x d : pystr) : pystr := if truthy x then x else d.

(** [str.isspace] on one code point, as CPython's [Py_UNICODE_ISSPACE]. *)
Definition is_space (c : N) : bool :=
  ((9 <=? c) && (c <=? 13)) || ((28 <=? c) && (c <=? 32))
  || (c =? 133) || (c =? 160) || (c =? 5760)
  || ((8192 <=? c) && (c <=? 8202))
  || (c =? 8232) || (c =? 8233) || (c =? 8239) || (c =? 8287)
  || (c =? 12288).

Fixpoint dropWhile {A} (p : A -> bool) (l : list A) : list A :=
  match l with
  | [] => []
  | x :: t => if p x then dropWhile p t else l
  end.

Definition lstrip (s : pystr) : pystr := dropWhile is_space s.
Definition rstrip (s : pystr) : pystr := rev (dropWhile is_space (rev s)).

(** [s.strip()]: whitespace removed at both ends. *)
Definition strip (s : pystr) : pystr := lstrip (rstrip s).

(** [sep.join(l)]. *)
Fixpoint join (sep : pystr) (l : list pystr) : pystr :=
  match l with
  | [] => []
  | x :: t =>
      match t with
      | [] => x
      | _ :: _ => x ++ sep ++ join sep t
      end
  end.

(** [s.split(sep)] for a one-character separator: never the empty list. *)
Fixpoint split (sep : N) (s : pystr) : list pystr :=
  match s with
  | [] => [[]]
  | c :: t =>
      if c =? sep then [] :: split sep t
      else match split sep t with
           | [] => [[c]]
           | l :: ls => (c :: l) :: ls
           end
  end.

Definition NL : N := 10.

(** The lines of a text: [text.split("\n")]. *)
Definition lines_of (text : pystr) : list pystr := split NL text.

(** [s.encode("utf-8")]; a lone surrogate makes Python raise. *)
Definition byte_of (n : N) : byte :=
  match Byte.of_N n with
  | Some b => b
  | None => x00
  end.

Definition utf8_char (c : N) : option (list byte) :=
  if c <? 128 then Some [byte_of c]
  else if c <? 2048 then
    Some [byte_of (192 + c / 64); byte_of (128 + c mod 64)]
  else if (55296 <=? c) && (c <=? 57343) then None
  else if c <? 65536 then
    Some [byte_of (224 + c / 4096); byte_of (128 + (c / 64) mod 64);
          byte_of (128 + c mod 64)]
  else
    Some [byte_of (240 + c / 262144); byte_of (128 + (c / 4096) mod 64);
          byte_of (128 + (c / 64) mod 64); byte_of (128 + c mod 64)].

Fixpoint utf8_encode (s : pystr) : option (list byte) :=
  match s with
  | [] => Some []
  | c :: t =>
      match utf8_char c, utf8_encode t with
      | Some b, Some bs => Some (b ++ bs)
      | _, _ => None
      end
  end.

(** ** Record model *)

Module Skill.
Record t := mk { name : pystr; level : pystr }.
End Skill.

Module ExperienceItem.
Record t := mk
    { role : pystr; company : pystr; period : pystr; bullets : list pystr }.
End ExperienceItem.

Module EducationItem.
Record t := mk
    { degree : pystr; school : pystr; period : pystr; details : pystr }.
End EducationItem.

Module ResumeData.
Record t := mk
    { name : pystr;
      title : pystr;
      email : pystr;
      phone : pystr;
      location : pystr;
      photo : option pystr;
      summary : pystr;
      experience : list ExperienceItem.t;
      education : list EducationItem.t;
      skills : list Skill.t;
      achievements : list pystr }.

(** The record pydantic builds from [{}]: every field at its default. *)
Definition default : t :=
  mk [] [] [] [] [] None [] [] [] [] [].
End ResumeData.

Module ExportPayload.
Record t := mk
    { data : ResumeData.t; template : pystr; color : pystr; font : pystr }.
End ExportPayload.

(** ** The text linearizer, [_format_text_resume] *)

(** [[x for x in l if x]] *)
Definition nonempty (l : list pystr) : list pystr := List.filter truthy l.

(** [b.strip()] as a condition. *)
Definition nonblank (b : pystr) : bool := truthy (strip b).

Definition bullet (b : pystr) : pystr := py "  " ++ [8226] ++ py " " ++ b.

Definition header (data : ResumeData.t) : pystr :=
  str_or (ResumeData.name data) (py "Your Name").

Definition sub (data : ResumeData.t) : pystr :=
  join (py " | ")
    (nonempty [ResumeData.title data; ResumeData.email data;
               ResumeData.phone data; ResumeData.location data]).

(** The entry line and the bullet lines of one experience item. *)
Definition experience_lines (e : ExperienceItem.t) : list pystr :=
  join (py " - ")
    (nonempty [ExperienceItem.role e; ExperienceItem.company e;
               ExperienceItem.period e])
  :: List.map bullet (List.filter nonblank (ExperienceItem.bullets e)).

(** The entry line of one education item and its details line, if any. *)
Definition education_lines (ed : EducationItem.t) : list pystr :=
  join (py " - ")
    (nonempty [EducationItem.degree ed; EducationItem.school ed;
               EducationItem.period ed])
  :: (if truthy (EducationItem.details ed)
      then [bullet (EducationItem.details ed)] else []).

(** [s.name + (f" ({s.level})" if s.level else "")] *)
Definition skill_text (s : Skill.t) : pystr :=
  Skill.name s ++
  (if truthy (Skill.level s) then py " (" ++ Skill.level s ++ py ")" else []).

Definition skills_line (skills : list Skill.t) : pystr :=
  join (py ", ")
    (List.map skill_text (List.filter (fun s => truthy (Skill.name s)) skills)).

Definition summary_part (data : ResumeData.t) : list pystr :=
  if truthy (ResumeData.summary data)
  then [NL :: py "Summary" ++ [NL] ++ ResumeData.summary data] else [].

Definition experience_part (data : ResumeData.t) : list pystr :=
  match ResumeData.experience data with
  | [] => []
  | es => (NL :: py "Experience") :: flat_map experience_lines es
  end.

Definition education_part (data : ResumeData.t) : list pystr :=
  match ResumeData.education data with
  | [] => []
  | eds => (NL :: py "Education") :: flat_map education_lines eds
  end.

Definition skills_part (data : ResumeData.t) : list pystr :=
  match ResumeData.skills data with
  | [] => []
  | sk =>
      if truthy (skills_line sk)
      then [NL :: py "Skills" ++ [NL] ++ skills_line sk] else []
  end.

Definition achievements_part (data : ResumeData.t) : list pystr :=
  match ResumeData.achievements data with
  | [] => []
  | acs => (NL :: py "Achievements") :: List.map bullet (List.filter nonblank acs)
  end.

(** The list [parts] when the function reaches its [return]. *)
Definition parts (data : ResumeData.t) : list pystr :=
  [header data]
  ++ (if truthy (sub data) then [sub data] else [])
  ++ summary_part data
  ++ experience_part data
  ++ education_part data
  ++ skills_part data
  ++ achievements_part data.

Definition _format_text_resume (data : ResumeData.t) : pystr :=
  strip (join [NL] (parts data)) ++ [NL].

(** ** The plain-text exporter *)

Record StreamingResponse := mkResponse
  { body : list byte; media_type : pystr; content_disposition : pystr }.

(** [export_txt]: [None] when [encode] raises. *)
Definition export_txt (payload : ExportPayload.t) : option StreamingResponse :=
  match utf8_encode (_format_text_resume (ExportPayload.data payload)) with
  | Some bs =>
      Some (mkResponse bs (py "text/plain")
              (py "attachment; filename=resume.txt"))
  | None => None
  end.

(** ** The Word exporter *)

(** [python-docx] is driven through three calls; the document is the
    sequence of calls made on it. *)
Inductive paragraph_style := style_default | style_Normal | style_List_Bullet.

Inductive docx_op :=
| normal_font (name : pystr) (pt : Z)
| add_heading (text : pystr) (level : Z)
| add_paragraph (text : pystr) (style : paragraph_style).

Definition docx_experience (e : ExperienceItem.t) : list docx_op :=
  add_paragraph
    (join (py " - ")
       (nonempty [ExperienceItem.role e; ExperienceItem.company e;
                  ExperienceItem.period e])) style_default
  :: List.map (fun b => add_paragraph b style_List_Bullet)
       (List.filter nonblank (ExperienceItem.bullets e)).

Definition docx_education (ed : EducationItem.t) : list docx_op :=
  add_paragraph
    (join (py " - ")
       (nonempty [EducationItem.degree ed; EducationItem.school ed;
                  EducationItem.period ed])) style_default
  :: (if truthy (EducationItem.details ed)
      then [add_paragraph (EducationItem.details ed) style_default] else []).

Definition docx_calls (d : ResumeData.t) : list docx_op :=
  [normal_font (py "Inter") 10;
   add_heading (str_or (ResumeData.name d) (py "Your Name")) 0]
  ++ (if truthy (sub d) then [add_paragraph (sub d) style_Normal] else [])
  ++ (if truthy (ResumeData.summary d)
      then [add_heading (py "Summary") 1;
            add_paragraph (ResumeData.summary d) style_default]
      else [])
  ++ match ResumeData.experience d with
     | [] => []
     | es => add_heading (py "Experience") 1 :: flat_map docx_experience es
     end
  ++ match ResumeData.education d with
     | [] => []
     | eds => add_heading (py "Education") 1 :: flat_map docx_education eds
     end
  ++ match ResumeData.skills d with
     | [] => []
     | sk => [add_heading (py "Skills") 1;
              add_paragraph (skills_line sk) style_default]
     end
  ++ match ResumeData.achievements d with
     | [] => []
     | acs => add_heading (py "Achievements") 1
              :: List.map (fun a => add_paragraph a style_List_Bullet)
                   (List.filter nonblank acs)
     end.

(** ** The PDF exporter *)

(** The calls made on the [reportlab] canvas, in order. *)
Inductive canvas_op :=
| setFont (psfontname : pystr) (size : Z)
| drawString (x y : Z) (text : pystr)
| showPage
| save.

(** The loop state: the cursor [y] and the calls made so far.  [y] is a
    float in the source; it starts at 752.0 and only has 14 and 18
    subtracted, so every value it takes is an integer held exactly. *)
Record pdf_state := mkPdf { y : Z; canvas : list canvas_op }.

Definition letter : Z * Z := (612, 792)%Z.
Definition width : Z := fst letter.
Definition height : Z := snd letter.
Definition x_margin : Z := 40%Z.

Definition HEADINGS : list pystr :=
  [py "Summary"; py "Experience"; py "Education"; py "Skills";
   py "Achievements"].

(** [line.strip() in ["Summary", ...]] *)
Definition is_heading (line : pystr) : bool :=
  bool_decide (strip line ∈ HEADINGS).

(** [if y < 60: c.showPage(); c.setFont("Helvetica", 11); y = height - 40] *)
Definition page_break (st : pdf_state) : pdf_state :=
  if (y st <? 60)%Z
  then mkPdf (height - 40)%Z
         (canvas st ++ [showPage; setFont (py "Helvetica") 11])
  else st.

(** [c.drawString(x_margin, y, w); y -= 14] *)
Definition draw_wrapped (st : pdf_state) (w : pystr) : pdf_state :=
  mkPdf (y st - 14)%Z (canvas st ++ [drawString x_margin (y st) w]).

Definition draw_heading (st : pdf_state) (line : pystr) : pdf_state :=
  mkPdf (y st - 18)%Z
    (canvas st ++ [setFont (py "Helvetica-Bold") 12;
                   drawString x_margin (y st) line;
                   setFont (py "Helvetica") 11]).

Section PDF.

(** [reportlab.lib.utils.simpleSplit text fontName fontSize maxWidth]. *)
Variable simpleSplit : pystr -> pystr -> Z -> Z -> list pystr.

(** One turn of [for line in lines]. *)
Definition draw_line (st : pdf_state) (line : pystr) : pdf_state :=
  let st := page_break st in
  if is_heading line then draw_heading st line
  else fold_left draw_wrapped
         (simpleSplit line (py "Helvetica") 11 (width - 2 * x_margin)%Z) st.

(** The state after the loop over [text.split("\n")]. *)
Definition pdf_loop (text : pystr) : pdf_state :=
  fold_left draw_line (lines_of text)
    (mkPdf (height - 40)%Z [setFont (py "Helvetica-Bold") 14]).

Definition pdf_calls (data : ResumeData.t) : list canvas_op :=
  canvas (pdf_loop (_format_text_resume data)) ++ [showPage; save].

End PDF.

(** *** [simpleSplit] as reportlab defines it

    Greedy word wrap: the words of each line are packed while the running
    width stays within [maxWidth]; a word too wide for a line of its own
    still gets one.  Widths are kept as exact integers, in thousandths of
    a point, where the library computes in floats. *)

(** [txt.split()]: the maximal runs of non-whitespace. *)
Fixpoint split_ws_go (s cur : pystr) : list pystr :=
  match s with
  | [] => if truthy cur then [rev cur] else []
  | c :: t =>
      if is_space c
      then (if truthy cur then rev cur :: split_ws_go t [] else split_ws_go t [])
      else split_ws_go t (c :: cur)
  end.

Definition split_ws (s : pystr) : list pystr := split_ws_go s [].

Section SimpleSplit.

(** Width of a glyph of the font, in thousandths of the font size. *)
Variable glyph : N -> Z.

Definition stringWidth (t : pystr) (fontSize : Z) : Z :=
  (fontSize * fold_right (fun c a => glyph c + a) 0 t)%Z.

(** The loop state of [_simpleSplit]: the lines [L], the words [O] of the
    open line (here [O_]) and its width [w]. *)
Definition wrap_step (mW ws fontSize : Z)
    (st : list pystr * list pystr * Z) (t : pystr) :=
  let '(L, O_, w) := st in
  let lt := stringWidth t fontSize in
  if (w + ws + lt <=? mW)%Z || bool_decide (O_ = [])
  then (L, O_ ++ [t], (w + ws + lt)%Z)
  else (L ++ [join (py " ") O_], [t], lt).

Definition _simpleSplit (txt : pystr) (mW fontSize : Z) : list pystr :=
  let ws := stringWidth (py " ") fontSize in
  let '(L, O_, _) :=
    fold_left (wrap_step mW ws fontSize) (split_ws txt) ([], [], (- ws)%Z) in
  if bool_decide (O_ = []) then L else L ++ [join (py " ") O_].

(** The font is the section's [glyph] table, whatever [fontName] says. *)
Definition rl_simpleSplit (text fontName : pystr) (fontSize maxWidth : Z)
  : list pystr :=
  if (maxWidth =? 0)%Z then lines_of text
  else flat_map (fun l => _simpleSplit l (maxWidth * 1000) fontSize)
         (lines_of text).

End SimpleSplit.

(** Advance widths of Helvetica for printable ASCII (Adobe's AFM file);
    other code points are outside this table. *)
Definition helvetica_widths : list Z :=
  [278; 278; 355; 556; 556; 889; 667; 191; 333; 333; 389; 584; 278; 333; 278;
   278; 556; 556; 556; 556; 556; 556; 556; 556; 556; 556; 278; 278; 584; 584;
   584; 556; 1015; 667; 667; 722; 722; 667; 611; 778; 722; 278; 500; 667; 556;
   833; 722; 778; 667; 778; 722; 667; 611; 722; 667; 944; 667; 667; 611; 278;
   278; 278; 469; 556; 333; 556; 556; 500; 556; 556; 278; 556; 556; 222; 222;
   500; 222; 833; 556; 556; 556; 556; 333; 500; 278; 556; 500; 722; 500; 500;
   500; 334; 260; 334; 584]%Z.

Definition helvetica (c : N) : Z :=
  if c <? 32 then 0%Z
  else nth (N.to_nat (c - 32)) helvetica_widths 0%Z.

(** ** The three endpoints

    What the libraries write for a given sequence of calls is theirs to
    decide, and may depend on ambient state such as the clock; [None] stands
    for a library call that raises. *)
Section Exporters.

Variable World : Type.
Variable docx_save : World -> list docx_op -> option (list byte).
Variable canvas_save : World -> list canvas_op -> option (list byte).
Variable simpleSplit : pystr -> pystr -> Z -> Z -> list pystr.

Definition export_docx (w : World) (payload : ExportPayload.t)
  : option StreamingResponse :=
  match docx_save w (docx_calls (ExportPayload.data payload)) with
  | Some bs =>
      Some (mkResponse bs
              (py "application/vnd.openxmlformats-officedocument.wordprocessingml.document")
              (py "attachment; filename=resume.docx"))
  | None => None
  end.

Definition export_pdf (w : World) (payload : ExportPayload.t)
  : option StreamingResponse :=
  match canvas_save w (pdf_calls simpleSplit (ExportPayload.data payload)) with
  | Some bs =>
      Some (mkResponse bs (py "application/pdf")
              (py "attachment; filename=resume.pdf"))
  | None => None
  end.

End Exporters.

(** ** The suggestion generator, [ai_suggest] *)

(** The values a JSON body deserializes to.  A float is kept as its
    IEEE-754 binary64 bit pattern; a [dict] nested in the context keeps
    its keys in insertion order. *)
#[local] Set Warnings "-register-all".

Inductive value :=
| VNone
| VBool (b : bool)
| VInt (n : Z)
| VFloat (bits : N)
| VStr (s : pystr)
| VList (l : list value)
| VDict (d : list (pystr * value)).

(** [bool(v)] *)
Definition bool_value (v : value) : bool :=
  match v with
  | VNone => false
  | VBool b => b
  | VInt n => negb (n =? 0)%Z
  | VFloat bits => negb (bits mod 2 ^ 63 =? 0)
  | VStr s => truthy s
  | VList l => bool_decide (l ≠ [])
  | VDict d => bool_decide (d ≠ [])
  end.

Inductive exn := TypeError | AttributeError.

Inductive result (A : Type) :=
| Return (a : A)
| Raise (e : exn).
Arguments Return {A} a.
Arguments Raise {A} e.

#[export] Instance result_ret : MRet result := fun _ a => Return a.

#[export] Instance result_bind : MBind result := fun _ _ k r =>
  match r with
  | Return a => k a
  | Raise e => Raise e
  end.

(** [ctx.get(key) or default] *)
Definition get_or (ctx : gmap pystr value) (key : pystr) (default : value)
  : value :=
  match ctx !! key with
  | Some v => if bool_value v then v else default
  | None => default
  end.

(** [for s in v]: the items a [for] visits, or [TypeError]. *)
Definition iterate (v : value) : result (list value) :=
  match v with
  | VStr s => Return (List.map (fun c => VStr [c]) s)
  | VList l => Return l
  | VDict d => Return (List.map (fun kv => VStr (fst kv)) d)
  | _ => Raise TypeError
  end.

(** [sep.join(l)] on a list of values: every item must be a [str]. *)
Fixpoint str_items (l : list value) : result (list pystr) :=
  match l with
  | [] => Return []
  | VStr s :: t => ss ← str_items t; mret (s :: ss)
  | _ :: _ => Raise TypeError
  end.

Module SuggestPayload.
Record t := mk { context : gmap pystr value; type : pystr }.
End SuggestPayload.

(** What the handler returns: one of the two dictionaries, or the
    [JSONResponse] with its [detail] and status code. *)
Inductive suggestion :=
| text_body (text : pystr)
| bullets_body (bullets : list pystr)
| JSONResponse (detail : pystr) (status_code : Z).

Section Suggest.

(** [str.title], and [str(v)] for a value that is not a [str]: both are
    total builtins. *)
Variable str_title : pystr -> pystr.
Variable str_of : value -> pystr.

(** [title.title()] *)
Definition title_of (v : value) : result pystr :=
  match v with
  | VStr s => Return (str_title s)
  | _ => Raise AttributeError
  end.

(** [f"{v}"] *)
Definition format (v : value) : pystr :=
  match v with
  | VStr s => s
  | _ => str_of v
  end.

Definition ai_suggest (payload : SuggestPayload.t) : result suggestion :=
  let t := SuggestPayload.type payload in
  let ctx := SuggestPayload.context payload in
  if bool_decide (t = py "summary") then
    let title := get_or ctx (py "title") (VStr (py "professional")) in
    let skills := get_or ctx (py "skills") (VList []) in
    items ← iterate skills;
    strs ← str_items (List.filter bool_value items);
    let skills_str := join (py ", ") strs in
    titled ← title_of title;
    mret (text_body (strip (
      titled ++ py " with a track record of delivering measurable outcomes. "
      ++ py "Skilled in " ++ skills_str
      ++ py ". Known for clear communication, ownership, and continuous improvement. "
      ++ py "Seeking to leverage expertise to drive impact in a high-performing team.")))
  else if bool_decide (t = py "bullets") then
    let role := get_or ctx (py "role") (VStr (py "Role")) in
    let company := get_or ctx (py "company") (VStr (py "Company")) in
    Return (bullets_body
      [py "Drove end-to-end initiatives as " ++ format role ++ py " at "
         ++ format company ++ py ", improving key KPIs by 15%+.";
       py "Collaborated cross-functionally to ship features on time while reducing defects.";
       py "Automated repetitive workflows to save team 4" ++ [8211]
         ++ py "6 hrs/week and increase consistency.";
       py "Translated business goals into actionable plans with clear milestones and metrics."])
  else Return (JSONResponse (py "Unsupported type") 400).

End Suggest.

(** *** The builtins on a fragment, for running the handler

    [str.title] on ASCII letters (other code points are left alone and
    count as uncased), and [str] of the scalar values. *)
Fixpoint title_go (prev_cased : bool) (s : pystr) : pystr :=
  match s with
  | [] => []
  | c :: t =>
      if (65 <=? c) && (c <=? 90)
      then (if prev_cased then c + 32 else c) :: title_go true t
      else if (97 <=? c) && (c <=? 122)
      then (if prev_cased then c else c - 32) :: title_go true t
      else c :: title_go false t
  end.

Definition title_ascii (s : pystr) : pystr := title_go false s.

Definition digit (n : N) : N := 48 + n mod 10.

Fixpoint decimal_go (fuel : nat) (n : N) (acc : pystr) : pystr :=
  match fuel with
  | O => acc
  | S fuel' =>
      if n <? 10 then digit n :: acc
      else decimal_go fuel' (n / 10) (digit n :: acc)
  end.

Definition decimal (n : Z) : pystr :=
  (if (n <? 0)%Z then py "-" else [])
  ++ decimal_go (S (N.to_nat (N.log2 (Z.abs_N n)))) (Z.abs_N n) [].

Definition str_scalar (v : value) : pystr :=
  match v with
  | VNone => py "None"
  | VBool true => py "True"
  | VBool false => py "False"
  | VInt n => decimal n
  | VStr s => s
  | _ => py "..."
  end.

(** ** Sample requests *)

Definition ann_lee : ResumeData.t :=
  ResumeData.mk (py "Ann Lee") (py "Engineer") [] [] [] None [] [] []
    [Skill.mk (py "Go") []] [].

(** One achievement, a single space. *)
Definition blank_achievement : ResumeData.t :=
  ResumeData.mk [] [] [] [] [] None [] [] [] [] [py " "].

(** A name that is a single space. *)
Definition blank_name : ResumeData.t :=
  ResumeData.mk (py " ") [] [] [] [] None [] [] [] [] [].

(** A summary that reads [" Skills"], with a leading space. *)
Definition indented_skills : ResumeData.t :=
  ResumeData.mk [] [] [] [] [] None (py " Skills") [] [] [] [].

(** A summary of sixty unbreakable words, each 60 letters [W]: 623 points
    wide at size 11, against a printable width of 532. *)
Definition long_word : pystr := repeat 87 60.

Definition long_summary : ResumeData.t :=
  ResumeData.mk [] [] [] [] [] None
    (join (py " ") (repeat long_word 60)) [] [] [] [].

(** Two empty experience entries followed by an education entry. *)
Definition empty_entries : ResumeData.t :=
  ResumeData.mk (py "Ann Lee") [] [] [] [] None []
    [ExperienceItem.mk [] [] [] []; ExperienceItem.mk [] [] [] []]
    [EducationItem.mk (py "BSc") [] [] []] [] [].

(** [{"title": 5}] asked for a summary. *)
Definition numeric_title : SuggestPayload.t :=
  SuggestPayload.mk {[ py "title" := VInt 5 ]} (py "summary").

Definition engineer_ctx : gmap pystr value :=
  {[ py "title" := VStr (py "engineer");
     py "skills" := VList [VStr (py "Go"); VStr (py "SQL")] ]}.

(** Whether some [drawString] of a trace has its cursor below [limit]. *)
Definition drawn_below (limit : Z) (ops : list canvas_op) : bool :=
  existsb (fun op =>
             match op with
             | drawString _ y _ => (y <? limit)%Z
             | _ => false
             end) ops.

(** The cursor positions of the [drawString] calls of a trace. *)
Definition cursors (ops : list canvas_op) : list Z :=
  flat_map (fun op =>
              match op with
              | drawString _ y _ => [y]
              | _ => []
              end) ops.

(** The values [title.title()] and [", ".join(...)] accept: a string, or a
    value the [or] or the [if] discards first. *)
Definition str_or_falsy (v : value) : Prop :=
  bool_value v = false \/ exists s, v = VStr s.

Definition title_ok (ctx : gmap pystr value) : Prop :=
  forall v, ctx !! py "title" = Some v -> str_or_falsy v.

Definition skills_ok (ctx : gmap pystr value) : Prop :=
  forall v, ctx !! py "skills" = Some v ->
    bool_value v = false
    \/ exists items, iterate v = Return items /\ Forall str_or_falsy items.

(** Stand-ins for the two document libraries, for running the exporters:
    the texts of the calls, one per line, encoded. *)
Definition docx_text (op : docx_op) : pystr :=
  match op with
  | normal_font name _ => name
  | add_heading text _ => text
  | add_paragraph text _ => text
  end.

Definition canvas_text (op : canvas_op) : pystr :=
  match op with
  | setFont name _ => name
  | drawString _ _ text => text
  | showPage => py "showPage"
  | save => py "save"
  end.

Definition plain_docx (w : unit) (ops : list docx_op) : option (list byte) :=
  utf8_encode (join [NL] (List.map docx_text ops)).

Definition plain_canvas (w : unit) (ops : list canvas_op) : option (list byte) :=
  utf8_encode (join [NL] (List.map canvas_text ops)).

(** A stand-in for a library that stamps what it writes with the time of
    the call, as reportlab does with the creation date and the document id
    of a PDF: the ambient state is the clock, and its low byte closes the
    document. *)
Definition stamped_canvas (clock : N) (ops : list canvas_op)
  : option (list byte) :=
  match plain_canvas tt ops with
  | Some bs => Some (bs ++ [byte_of (clock mod 256)])
  | None => None
  end.

(** The same resume under two sets of cosmetic fields. *)
Definition ann_clean : ExportPayload.t :=
  ExportPayload.mk ann_lee (py "clean") (py "slate") (py "inter").

Definition ann_bold : ExportPayload.t :=
  ExportPayload.mk ann_lee (py "bold") (py "crimson") (py "serif").

(** A level without a name, a name without a level, and both. *)
Definition three_skills : ResumeData.t :=
  ResumeData.mk [] [] [] [] [] None [] [] []
    [Skill.mk [] (py "Expert"); Skill.mk (py "Go") [];
     Skill.mk (py "SQL") (py "Advanced")] [].

(** One experience entry with nothing in it, and nothing after it. *)
Definition lone_empty_entry : ResumeData.t :=
  ResumeData.mk [] [] [] [] [] None []
    [ExperienceItem.mk [] [] [] []] [] [] [].

(** The calls made before the first [showPage]. *)
Fixpoint first_page (ops : list canvas_op) : list canvas_op :=
  match ops with
  | [] => []
  | showPage :: _ => []
  | op :: t => op :: first_page t
  end.

(** *** The final trim, read on lines

    What [strip] does to a text, told on its lines: the blank lines that
    open it go, and the first line left loses its leading whitespace; the
    same from the other end. *)
Definition blank_line (l : pystr) : bool := forallb is_space l.

Fixpoint lstrip_lines (Ls : list pystr) : list pystr :=
  match Ls with
  | [] => []
  | l :: ls => if blank_line l then lstrip_lines ls else lstrip l :: ls
  end.

(** The lines of the reversed text. *)
Definition mirror (Ls : list pystr) : list pystr := rev (List.map (@rev N) Ls).

Definition rstrip_lines (Ls : list pystr) : list pystr :=
  mirror (lstrip_lines (mirror Ls)).

(** A text has at least one line: the empty text has one empty line. *)
Definition at_least_one (Ls : list pystr) : list pystr :=
  match Ls with
  | [] => [[]]
  | _ :: _ => Ls
  end.

Definition strip_lines (Ls : list pystr) : list pystr :=
  at_least_one (lstrip_lines (rstrip_lines Ls)).

(** ** The diagnostic endpoint, [test_database]

    The handler imports the optional [database] module, which is not part of
    this repository, and reads two environment variables.  What the import
    and the handle do is the input here. *)

(** A raised exception: whether [except ImportError] catches it, and its
    [str(e)]. *)
Record exception := mkExn { is_ImportError : bool; message : pystr }.

(** [db.name]: no such attribute ([hasattr] is false), a value, or a getter
    that raises something other than [AttributeError]. *)
Inductive attribute :=
| no_attribute
| attribute_value (v : value)
| attribute_raises (e : exception).

Module Database.
Record t := mk
  { name : attribute;
    list_collection_names : exception + list pystr }.
End Database.

(** [from database import db]: it raises, or binds [db] to [None] or to a
    handle. *)
Definition import_outcome : Type := exception + option Database.t.

Record status_response := mkStatus
  { backend : pystr;
    database : pystr;
    database_url : value;
    database_name : value;
    connection_status : pystr;
    collections : list pystr }.

Definition set_database (s : pystr) (r : status_response) : status_response :=
  mkStatus (backend r) s (database_url r) (database_name r)
    (connection_status r) (collections r).

Definition set_database_url (v : value) (r : status_response) : status_response :=
  mkStatus (backend r) (database r) v (database_name r)
    (connection_status r) (collections r).

Definition set_database_name (v : value) (r : status_response) : status_response :=
  mkStatus (backend r) (database r) (database_url r) v
    (connection_status r) (collections r).

Definition set_connection_status (s : pystr) (r : status_response)
  : status_response :=
  mkStatus (backend r) (database r) (database_url r) (database_name r) s
    (collections r).

Definition set_collections (l : list pystr) (r : status_response)
  : status_response :=
  mkStatus (backend r) (database r) (database_url r) (database_name r)
    (connection_status r) l.

Definition check_mark : pystr := [9989].
Definition cross_mark : pystr := [10060].
Definition warning_sign : pystr := [9888; 65039].

Definition initial_status : status_response :=
  mkStatus (check_mark ++ py " Running") (cross_mark ++ py " Not Available")
    VNone VNone (py "Not Connected") [].

(** The two outer handlers, [except ImportError] and [except Exception]. *)
Definition import_handlers (e : exception) (r : status_response)
  : status_response :=
  if is_ImportError e
  then set_database
         (cross_mark ++ py " Database module not found (run enable-database first)") r
  else set_database (cross_mark ++ py " Error: " ++ take 50 (message e)) r.

(** The [try] statement: the response as the assignments leave it. *)
Definition probe_database (imp : import_outcome) (r : status_response)
  : status_response :=
  match imp with
  | inl e => import_handlers e r
  | inr None =>
      set_database (warning_sign ++ py "  Available but not initialized") r
  | inr (Some db) =>
      let r := set_database (check_mark ++ py " Available") r in
      let r := set_database_url (VStr (check_mark ++ py " Configured")) r in
      match Database.name db with
      | attribute_raises e => import_handlers e r
      | a =>
          let r :=
            set_database_name
              (match a with
               | attribute_value v => v
               | _ => VStr (check_mark ++ py " Connected")
               end) r in
          let r := set_connection_status (py "Connected") r in
          match Database.list_collection_names db with
          | inr names =>
              set_database (check_mark ++ py " Connected & Working")
                (set_collections (take 10 names) r)
          | inl e =>
              set_database
                (warning_sign ++ py "  Connected but Error: "
                 ++ take 50 (message e)) r
          end
      end
  end.

(** ["✅ Set" if os.getenv(key) else "❌ Not Set"] *)
Definition env_flag (environ : gmap pystr pystr) (key : pystr) : value :=
  match environ !! key with
  | Some v => if truthy v then VStr (check_mark ++ py " Set")
              else VStr (cross_mark ++ py " Not Set")
  | None => VStr (cross_mark ++ py " Not Set")
  end.

Definition test_database (imp : import_outcome) (environ : gmap pystr pystr)
  : status_response :=
  let response := probe_database imp initial_status in
  let response :=
    set_database_url (env_flag environ (py "DATABASE_URL")) response in
  set_database_name (env_flag environ (py "DATABASE_NAME")) response.

(** ** Readings of the traces and of the text *)

(** The texts of the [drawString] calls of a trace, in order. *)
Definition drawn_texts (ops : list canvas_op) : list pystr :=
  flat_map (fun op =>
              match op with
              | drawString _ _ text => [text]
              | _ => []
              end) ops.

(** What one line of the text puts on the page. *)
Definition line_texts (simpleSplit : pystr -> pystr -> Z -> Z -> list pystr)
    (line : pystr) : list pystr :=
  if is_heading line then [line]
  else simpleSplit line (py "Helvetica") 11%Z 532%Z.

(** The section headings of a Word document: its level-1 headings. *)
Definition docx_sections (ops : list docx_op) : list pystr :=
  flat_map (fun op =>
              match op with
              | add_heading text level => if (level =? 1)%Z then [text] else []
              | _ => []
              end) ops.

(** A code point [encode] refuses: a surrogate. *)
Definition surrogate (c : N) : bool := (55296 <=? c) && (c <=? 57343).

(** The summary sentence for a capitalised title and a skill list. *)
Definition summary_text (titled skills_str : pystr) : pystr :=
  strip (titled ++ py " with a track record of delivering measurable outcomes. "
         ++ py "Skilled in " ++ skills_str
         ++ py ". Known for clear communication, ownership, and continuous improvement. "
         ++ py "Seeking to leverage expertise to drive impact in a high-performing team.").

(** The four bullets for a role and a company. *)
Definition bullets_text (role company : pystr) : list pystr :=
  [py "Drove end-to-end initiatives as " ++ role ++ py " at " ++ company
     ++ py ", improving key KPIs by 15%+.";
   py "Collaborated cross-functionally to ship features on time while reducing defects.";
   py "Automated repetitive workflows to save team 4" ++ [8211]
     ++ py "6 hrs/week and increase consistency.";
   py "Translated business goals into actionable plans with clear milestones and metrics."].

(** *** More sample requests *)

(** Skills that all lack a name. *)
Definition unnamed_skills : ResumeData.t :=
  ResumeData.mk (py "Ann Lee") [] [] [] [] None [] [] []
    [Skill.mk [] (py "Expert"); Skill.mk [] []] [].

(** Only an e-mail address besides the name. *)
Definition email_only : ResumeData.t :=
  ResumeData.mk (py "Ann Lee") [] (py "ann@example.org") [] [] None [] [] [] [] [].

(** [{"title": "engineer", "skills": "Go"}]: the skills as one string. *)
Definition skills_as_string : gmap pystr value :=
  {[ py "title" := VStr (py "engineer"); py "skills" := VStr (py "Go") ]}.

(** [{"title": "engineer", "skills": ["Go", "", "SQL"]}] *)
Definition skills_with_gap : gmap pystr value :=
  {[ py "title" := VStr (py "engineer");
     py "skills" := VList (List.map VStr [py "Go"; []; py "SQL"]) ]}.

(** [{"title": 5, "skills": 7}]: both of the wrong type. *)
Definition both_wrong : gmap pystr value :=
  {[ py "title" := VInt 5; py "skills" := VInt 7 ]}.

(** A handle with twelve collections and a name. *)
Definition twelve_collections : Database.t :=
  Database.mk (attribute_value (VStr (py "resumes")))
    (inr (List.map (fun n => py "c" ++ [48 + n]) [0;1;2;3;4;5;6;7;8;9;1;2])).

Definition environ_url_only : gmap pystr pystr :=
  {[ py "DATABASE_URL" := py "mongodb://localhost" ]}.

(** * Properties *)

(** A decidable fact about closed terms, settled by evaluation. *)
Ltac by_evaluation := apply (bool_decide_unpack _); vm_compute; exact I.

(** ** Trimming, joining and splitting *)

Section Lists.

Context {A : Type} (p : A -> bool).

Lemma dropWhile_app_stop (a : list A) (c : A) (t : list A) :
  p c = false -> dropWhile p (a ++ c :: t) = dropWhile p a ++ c :: t.
Proof.
  intros Hc. induction a as [|x a IH]; simpl.
  - now rewrite Hc.
  - destruct (p x); [exact IH | reflexivity].
Qed.

Lemma dropWhile_suffix (l : list A) : exists u, l = u ++ dropWhile p l.
Proof.
  induction l as [|x l [u Hu]]; simpl.
  - now exists [].
  - destruct (p x).
    + exists (x :: u). simpl. now f_equal.
    + now exists [].
Qed.

(** What is left of a list ending in [c] still ends in [c], or is empty. *)
Lemma dropWhile_snoc (a : list A) (c : A) :
  dropWhile p (a ++ [c]) = [] \/ exists a', dropWhile p (a ++ [c]) = a' ++ [c].
Proof.
  induction a as [|x a IH]; simpl.
  - destruct (p c); [now left | right; now exists []].
  - destruct (p x); [exact IH | right; now exists (x :: a)].
Qed.

End Lists.

Lemma rstrip_app_stop (a : pystr) (c : N) (t : pystr) :
  is_space c = false -> rstrip (a ++ c :: t) = a ++ c :: rstrip t.
Proof.
  intros Hc. unfold rstrip.
  rewrite rev_app_distr. simpl rev. rewrite <- app_assoc. simpl.
  rewrite dropWhile_app_stop by exact Hc.
  rewrite rev_app_distr. simpl. rewrite rev_involutive.
  now rewrite <- app_assoc.
Qed.

Lemma lstrip_app_stop (a : pystr) (c : N) (t : pystr) :
  is_space c = false -> lstrip (a ++ c :: t) = lstrip a ++ c :: t.
Proof. apply dropWhile_app_stop. Qed.

(** Trimming stops at a character that is not whitespace, from both sides. *)
Lemma strip_around (a : pystr) (c : N) (b : pystr) :
  is_space c = false -> strip (a ++ c :: b) = lstrip a ++ c :: rstrip b.
Proof.
  intros Hc. unfold strip.
  rewrite rstrip_app_stop by exact Hc. now apply lstrip_app_stop.
Qed.

Lemma rstrip_prefix (t : pystr) : exists u, t = rstrip t ++ u.
Proof.
  unfold rstrip. destruct (dropWhile_suffix is_space (rev t)) as [u Hu].
  exists (rev u). rewrite <- rev_app_distr, <- Hu. now rewrite rev_involutive.
Qed.

(** A text that is empty or begins a new line stays so when trimmed on the
    right and closed by a newline. *)
Lemma rstrip_newline_tail (b : pystr) :
  (b = [] \/ exists b', b = NL :: b') -> exists t, rstrip b ++ [NL] = NL :: t.
Proof.
  intros Hb. destruct (rstrip_prefix b) as [u Hu].
  destruct (rstrip b) as [|c r] eqn:E.
  - now exists [].
  - destruct Hb as [-> | [b' ->]]; [discriminate Hu |].
    injection Hu as <- _. now exists (r ++ [NL]).
Qed.

Lemma join_cons (sep h : pystr) (t : list pystr) :
  join sep (h :: t) = h ++ flat_map (fun x => sep ++ x) t.
Proof.
  revert h. induction t as [|x t IH]; intros h.
  - simpl. now rewrite app_nil_r.
  - change (join sep (h :: x :: t)) with (h ++ sep ++ join sep (x :: t)).
    rewrite IH. simpl. now rewrite <- app_assoc.
Qed.

Lemma join_app (sep : pystr) (P Q : list pystr) :
  P <> [] -> join sep (P ++ Q) = join sep P ++ flat_map (fun x => sep ++ x) Q.
Proof.
  destruct P as [|h P]; [congruence | intros _].
  rewrite <- app_comm_cons, !join_cons, flat_map_app. now rewrite app_assoc.
Qed.

Lemma split_not_nil (sep : N) (s : pystr) : split sep s <> [].
Proof.
  destruct s as [|c t]; simpl; [discriminate |].
  destruct (c =? sep); [discriminate |].
  destruct (split sep t); discriminate.
Qed.

Lemma split_app_sep (sep : N) (a b : pystr) :
  split sep (a ++ sep :: b) = split sep a ++ split sep b.
Proof.
  induction a as [|c a IH]; simpl.
  - now rewrite N.eqb_refl.
  - destruct (c =? sep); [now rewrite IH |].
    rewrite IH. pose proof (split_not_nil sep a) as Hne.
    destruct (split sep a); [congruence | reflexivity].
Qed.

Lemma split_no_sep (sep : N) (a : pystr) : sep ∉ a -> split sep a = [a].
Proof.
  induction a as [|c a IH]; intros Hn; simpl; [reflexivity |].
  apply not_elem_of_cons in Hn as [Hc Ha].
  destruct (N.eqb_spec c sep); [congruence |].
  now rewrite (IH Ha).
Qed.

(** The lines of joined parts are the lines of each part, in order. *)
Lemma lines_of_join (h : pystr) (t : list pystr) :
  lines_of (join [NL] (h :: t)) = flat_map lines_of (h :: t).
Proof.
  rewrite join_cons. unfold lines_of. revert h.
  induction t as [|x t IH]; intros h; simpl.
  - now rewrite !app_nil_r.
  - rewrite split_app_sep, IH. reflexivity.
Qed.

(** A text between two newlines, or opening the text, is one of its lines. *)
Lemma line_in_text (a m t : pystr) :
  NL ∉ m -> (a = [] \/ exists a', a = a' ++ [NL]) ->
  In m (lines_of (a ++ m ++ NL :: t)).
Proof.
  intros Hm [-> | [a' ->]]; unfold lines_of.
  - simpl. rewrite split_app_sep, (split_no_sep _ _ Hm). now left.
  - rewrite <- app_assoc. simpl. rewrite split_app_sep, split_app_sep.
    rewrite (split_no_sep _ _ Hm). apply in_or_app. right. now left.
Qed.

(** *** Splitting and joining are inverse; trimming, on lines *)

Lemma join_split (sep : N) (s : pystr) : join [sep] (split sep s) = s.
Proof.
  induction s as [|c t IH]; [reflexivity |].
  cbn [split]. pose proof (split_not_nil sep t) as Hne.
  destruct (split sep t) as [|l ls]; [congruence |].
  destruct (N.eqb_spec c sep) as [-> | Hc].
  - change (join [sep] ([] :: l :: ls)) with ([sep] ++ join [sep] (l :: ls)).
    now rewrite IH.
  - destruct ls as [|x ls].
    + cbn in *. now rewrite IH.
    + change (join [sep] ((c :: l) :: x :: ls))
        with (c :: join [sep] (l :: x :: ls)).
      now rewrite IH.
Qed.

Lemma split_sep_free (sep : N) (s : pystr) :
  Forall (fun l => sep ∉ l) (split sep s).
Proof.
  induction s as [|c t IH]; simpl.
  - repeat constructor. apply not_elem_of_nil.
  - destruct (N.eqb_spec c sep) as [-> | Hc].
    + constructor; [apply not_elem_of_nil | exact IH].
    + destruct (split sep t) as [|l ls]; [repeat constructor |].
      * intros H. apply list_elem_of_singleton in H. congruence.
      * inversion IH as [|? ? Hl Hls]; subst. constructor; [| exact Hls].
        apply not_elem_of_cons. split; [congruence | exact Hl].
Qed.

Lemma split_join (sep : N) (Ls : list pystr) :
  Ls <> [] -> Forall (fun l => sep ∉ l) Ls -> split sep (join [sep] Ls) = Ls.
Proof.
  destruct Ls as [|h t]; [congruence | intros _].
  rewrite join_cons. revert h.
  induction t as [|x t IH]; intros h Hall.
  - cbn. rewrite app_nil_r. apply split_no_sep. now inversion Hall.
  - inversion Hall as [|? ? Hh Ht]; subst.
    change (h ++ flat_map (fun x => [sep] ++ x) (x :: t))
      with (h ++ sep :: (x ++ flat_map (fun x => [sep] ++ x) t)).
    rewrite split_app_sep, (IH x Ht), (split_no_sep _ _ Hh). reflexivity.
Qed.

Lemma mirror_cons (l : pystr) (Ls : list pystr) :
  mirror (l :: Ls) = mirror Ls ++ [rev l].
Proof. reflexivity. Qed.

Lemma rev_join (sep : N) (Ls : list pystr) :
  rev (join [sep] Ls) = join [sep] (mirror Ls).
Proof.
  induction Ls as [|h t IH]; [reflexivity |].
  destruct t as [|x t]; [reflexivity |].
  change (join [sep] (h :: x :: t)) with (h ++ [sep] ++ join [sep] (x :: t)).
  rewrite !rev_app_distr, IH, (mirror_cons h), join_app.
  - cbn. now rewrite app_nil_r, <- !app_assoc.
  - rewrite mirror_cons. now destruct (mirror t).
Qed.

Lemma mirror_sep_free (sep : N) (Ls : list pystr) :
  Forall (fun l => sep ∉ l) Ls -> Forall (fun l => sep ∉ l) (mirror Ls).
Proof.
  intros H. unfold mirror. apply Forall_rev, Forall_map.
  eapply Forall_impl; [exact H |].
  intros l Hl Hin. apply Hl. apply list_elem_of_In in Hin.
  apply list_elem_of_In. now apply in_rev.
Qed.

Lemma mirror_nil (Ls : list pystr) : mirror Ls = [] -> Ls = [].
Proof.
  unfold mirror. destruct Ls as [|l ls]; [reflexivity |].
  cbn. now destruct (rev (List.map (@rev N) ls)).
Qed.

(** The lines of the reversed text are the reversed lines, last first. *)
Lemma split_rev (sep : N) (s : pystr) :
  split sep (rev s) = mirror (split sep s).
Proof.
  rewrite <- (join_split sep s) at 1. rewrite rev_join.
  apply split_join.
  - intros H. apply mirror_nil in H. now apply split_not_nil in H.
  - apply mirror_sep_free, split_sep_free.
Qed.

Lemma lines_of_lstrip (s : pystr) :
  lines_of (lstrip s) = at_least_one (lstrip_lines (lines_of s)).
Proof.
  unfold lines_of, lstrip. induction s as [|c t IH]; [reflexivity |].
  cbn [split dropWhile]. destruct (N.eqb_spec c NL) as [-> | Hc].
  - exact IH.
  - pose proof (split_not_nil NL t) as Hne.
    destruct (split NL t) as [|l ls] eqn:E; [congruence |].
    cbn [lstrip_lines blank_line forallb] in *. unfold lstrip in *.
    cbn [dropWhile]. destruct (is_space c) eqn:Es.
    + exact IH.
    + cbn [andb at_least_one split].
      apply N.eqb_neq in Hc. now rewrite Hc, E.
Qed.

Lemma mirror_at_least_one (Ls : list pystr) :
  mirror (at_least_one Ls) = at_least_one (mirror Ls).
Proof.
  destruct Ls as [|l ls]; [reflexivity |]. cbn [at_least_one].
  destruct (mirror (l :: ls)) eqn:E; [| reflexivity].
  now apply mirror_nil in E.
Qed.

Lemma lines_of_rstrip (s : pystr) :
  lines_of (rstrip s) = at_least_one (rstrip_lines (lines_of s)).
Proof.
  unfold rstrip, rstrip_lines, lines_of. rewrite split_rev.
  fold (lstrip (rev s)). fold (lines_of (lstrip (rev s))).
  rewrite lines_of_lstrip. unfold lines_of. rewrite split_rev.
  apply mirror_at_least_one.
Qed.

Lemma lstrip_lines_at_least_one (Ls : list pystr) :
  lstrip_lines (at_least_one Ls) = lstrip_lines Ls.
Proof. now destruct Ls. Qed.

(** Trimming a text trims its lines. *)
Lemma lines_of_strip (s : pystr) :
  lines_of (strip s) = strip_lines (lines_of s).
Proof.
  unfold strip, strip_lines.
  now rewrite lines_of_lstrip, lines_of_rstrip, lstrip_lines_at_least_one.
Qed.

(** ** The linearizer *)

(** The parts that precede the achievements section always hold the header. *)
Lemma parts_before_achievements (data : ResumeData.t) :
  exists P, P <> [] /\ parts data = P ++ achievements_part data.
Proof.
  exists (header data ::
            (if truthy (sub data) then [sub data] else [])
            ++ summary_part data ++ experience_part data
            ++ education_part data ++ skills_part data).
  split; [discriminate |].
  unfold parts. simpl. f_equal. now rewrite <- !app_assoc.
Qed.

Lemma bullets_tail (sep : N) (B : list pystr) :
  let Bt := flat_map (fun x => [sep] ++ x) B in
  Bt = [] \/ exists b', Bt = sep :: b'.
Proof. destruct B as [|b B]; simpl; [now left | right; eauto]. Qed.

Lemma heading_line_in_output (P B : list pystr) (c : N) (m : pystr) (z : N) :
  P <> [] -> is_space c = false -> is_space z = false ->
  NL ∉ (c :: m ++ [z]) ->
  In (c :: m ++ [z])
     (lines_of (strip (join [NL] (P ++ (NL :: c :: m ++ [z]) :: B)) ++ [NL])).
Proof.
  intros HP Hc Hz Hm.
  rewrite (join_app _ _ _ HP). cbn [flat_map].
  set (Bt := flat_map (fun x => [NL] ++ x) B).
  replace (join [NL] P ++ ([NL] ++ NL :: c :: m ++ [z]) ++ Bt)
    with (((join [NL] P ++ [NL]) ++ [NL]) ++ c :: (m ++ z :: Bt))
    by (rewrite <- !app_assoc; simpl; now rewrite <- !app_assoc).
  rewrite (strip_around _ _ _ Hc), (rstrip_app_stop _ _ _ Hz).
  destruct (rstrip_newline_tail Bt (bullets_tail NL B)) as [t Ht].
  replace ((lstrip ((join [NL] P ++ [NL]) ++ [NL]) ++ c :: m ++ z :: rstrip Bt) ++ [NL])
    with (lstrip ((join [NL] P ++ [NL]) ++ [NL]) ++ (c :: m ++ [z]) ++ NL :: t).
  - apply line_in_text; [exact Hm | apply dropWhile_snoc].
  - rewrite <- Ht, <- !app_assoc. simpl. now rewrite <- !app_assoc.
Qed.

Lemma achievements_part_nonempty (data : ResumeData.t) :
  ResumeData.achievements data <> [] ->
  achievements_part data =
    (NL :: py "Achievements")
    :: List.map bullet (List.filter nonblank (ResumeData.achievements data)).
Proof.
  unfold achievements_part.
  destruct (ResumeData.achievements data); [congruence | reflexivity].
Qed.

Lemma filter_none {A} (f : A -> bool) (l : list A) :
  Forall (fun a => f a = false) l -> List.filter f l = [].
Proof.
  induction 1 as [|a l Ha _ IH]; simpl; [reflexivity |].
  now rewrite Ha.
Qed.

(** C1, as the code has it: the achievements section is emitted exactly when
    the achievements sequence is non-empty.  Then the output contains an
    "Achievements" heading line, also when every achievement is blank; blank
    achievements only lose their bullet lines, so an all-blank sequence
    leaves the heading alone. *)
Theorem achievements_heading_emitted (data : ResumeData.t) :
  (ResumeData.achievements data = [] -> achievements_part data = [])
  /\ (ResumeData.achievements data <> [] ->
      In (py "Achievements") (lines_of (_format_text_resume data))
      /\ (Forall (fun a => nonblank a = false) (ResumeData.achievements data) ->
          achievements_part data = [NL :: py "Achievements"])).
Proof.
  split.
  - unfold achievements_part. now intros ->.
  - intros Hne. split.
    + unfold _format_text_resume.
      destruct (parts_before_achievements data) as (P & HP & ->).
      rewrite (achievements_part_nonempty data Hne).
      change (py "Achievements") with (65 :: py "chievement" ++ [115]).
      apply heading_line_in_output; try reflexivity; [exact HP |].
      by_evaluation.
    + intros Hall. rewrite (achievements_part_nonempty data Hne).
      now rewrite (filter_none _ _ Hall).
Qed.

Lemma achievements_heading_emitted_witness :
  ResumeData.achievements blank_achievement <> []
  /\ In (py "Achievements") (lines_of (_format_text_resume blank_achievement))
  /\ achievements_part blank_achievement = [NL :: py "Achievements"].
Proof.
  assert (Hne : ResumeData.achievements blank_achievement <> []) by discriminate.
  destruct (achievements_heading_emitted blank_achievement) as [_ H].
  destruct (H Hne) as [Hin Hall].
  split; [exact Hne | split; [exact Hin |]].
  apply Hall. repeat constructor.
Defined.

(** C1, refuted as stated: one achievement that is a single space, hence
    blank, and the output still carries the "Achievements" heading line. *)
Lemma blank_achievements_keep_heading :
  ResumeData.achievements blank_achievement = [py " "]
  /\ strip (py " ") = []
  /\ _format_text_resume blank_achievement
     = py "Your Name" ++ [NL; NL] ++ py "Achievements" ++ [NL]
  /\ lines_of (_format_text_resume blank_achievement)
     = [py "Your Name"; []; py "Achievements"; []].
Proof. repeat split; reflexivity. Qed.

(** The output opens with a header that neither starts nor ends with
    whitespace and holds no newline. *)
Lemma first_line_of_output (c : N) (m : pystr) (z : N) (rest : list pystr) :
  is_space c = false -> is_space z = false -> NL ∉ (c :: m ++ [z]) ->
  head (lines_of (strip (join [NL] ((c :: m ++ [z]) :: rest)) ++ [NL]))
  = Some (c :: m ++ [z]).
Proof.
  intros Hc Hz Hm. rewrite join_cons.
  set (R := flat_map (fun x => [NL] ++ x) rest).
  replace ((c :: m ++ [z]) ++ R) with ([] ++ c :: (m ++ z :: R))
    by (simpl; now rewrite <- app_assoc).
  rewrite (strip_around _ _ _ Hc), (rstrip_app_stop _ _ _ Hz).
  destruct (rstrip_newline_tail R (bullets_tail NL rest)) as [t Ht].
  replace ((lstrip [] ++ c :: m ++ z :: rstrip R) ++ [NL])
    with ((c :: m ++ [z]) ++ NL :: t)
    by (rewrite <- Ht; simpl; now rewrite <- !app_assoc).
  unfold lines_of. rewrite split_app_sep, (split_no_sep _ _ Hm). reflexivity.
Qed.

(** C2, as the code has it: when the name is the empty string, the header
    line of the output, its first line, is the fallback "Your Name". *)
Theorem empty_name_falls_back (data : ResumeData.t) :
  ResumeData.name data = [] ->
  head (lines_of (_format_text_resume data)) = Some (py "Your Name").
Proof.
  intros Hname. unfold _format_text_resume, parts, header, str_or.
  rewrite Hname. cbn [truthy app].
  change (py "Your Name") with (89 :: py "our Nam" ++ [101]).
  apply first_line_of_output; try reflexivity.
  by_evaluation.
Qed.

Lemma empty_name_falls_back_witness :
  head (lines_of (_format_text_resume ResumeData.default))
  = Some (py "Your Name").
Proof. apply (empty_name_falls_back ResumeData.default). reflexivity. Defined.

(** C2, refuted as stated: a name of one space is blank but not empty; it is
    kept as the header, the final trim removes it, and the first line of the
    output is empty, not "Your Name". *)
Lemma blank_name_no_fallback :
  ResumeData.name blank_name = py " "
  /\ strip (ResumeData.name blank_name) = []
  /\ header blank_name = py " "
  /\ _format_text_resume blank_name = [NL]
  /\ head (lines_of (_format_text_resume blank_name)) = Some []
  /\ head (lines_of (_format_text_resume blank_name)) <> Some (py "Your Name").
Proof. repeat split; try reflexivity. discriminate. Qed.

(** C3: the record whose strings and sequences are all empty, whatever its
    photo, gives "Your Name" and one newline. *)
Theorem all_empty_record_text (photo : option pystr) :
  _format_text_resume (ResumeData.mk [] [] [] [] [] photo [] [] [] [] [])
  = py "Your Name" ++ [NL]
  /\ _format_text_resume ResumeData.default = py "Your Name" ++ [NL].
Proof. split; reflexivity. Qed.

Lemma existsb_filter {A} (f : A -> bool) (l : list A) :
  existsb f l = match List.filter f l with [] => false | _ :: _ => true end.
Proof.
  induction l as [|a l IH]; simpl; [reflexivity |].
  destruct (f a); [reflexivity | exact IH].
Qed.

Lemma truthy_true (s : pystr) : truthy s = true <-> s <> [].
Proof. destruct s; simpl; split; congruence. Qed.

Lemma truthy_false (s : pystr) : truthy s = false <-> s = [].
Proof. destruct s; simpl; split; congruence. Qed.

(** C8: the skills line.  A skill with an empty name is dropped whatever
    its level; a named skill renders as its name when the level is empty and
    as "name (level)" otherwise; the rendered skills are joined with ", ";
    and the line is appended under the "Skills" heading. *)
Theorem skills_line_rendering :
  (forall s rest, Skill.name s = [] ->
     skills_line (s :: rest) = skills_line rest)
  /\ (forall s, Skill.name s <> [] -> Skill.level s = [] ->
        skill_text s = Skill.name s)
  /\ (forall s, Skill.name s <> [] -> Skill.level s <> [] ->
        skill_text s = Skill.name s ++ py " (" ++ Skill.level s ++ py ")")
  /\ (forall s rest, Skill.name s <> [] ->
        skills_line (s :: rest)
        = skill_text s ++
          (if existsb (fun s' => truthy (Skill.name s')) rest
           then py ", " ++ skills_line rest else []))
  /\ (forall data, skills_line (ResumeData.skills data) <> [] ->
        In (NL :: py "Skills" ++ [NL] ++ skills_line (ResumeData.skills data))
           (parts data)).
Proof.
  repeat split.
  - intros s rest Hn. unfold skills_line. simpl. now rewrite Hn.
  - intros s _ Hl. unfold skill_text. rewrite Hl. simpl. apply app_nil_r.
  - intros s _ Hl. unfold skill_text.
    apply truthy_true in Hl. now rewrite Hl.
  - intros s rest Hn. unfold skills_line. simpl.
    apply truthy_true in Hn. rewrite Hn. cbn [List.map].
    rewrite existsb_filter, join_cons.
    destruct (List.filter _ rest) as [|s' l]; [reflexivity |].
    cbn [List.map]. now rewrite join_cons.
  - intros data Hl. unfold parts, skills_part.
    destruct (ResumeData.skills data) as [|s sk] eqn:E; [now destruct Hl |].
    apply truthy_true in Hl. rewrite Hl.
    rewrite !in_app_iff. do 5 right. left. now left.
Qed.

Lemma skills_line_rendering_witness :
  skills_line (ResumeData.skills three_skills) = py "Go, SQL (Advanced)"
  /\ In (NL :: py "Skills" ++ [NL] ++ py "Go, SQL (Advanced)")
       (parts three_skills)
  /\ _format_text_resume three_skills
     = py "Your Name" ++ [NL; NL] ++ py "Skills" ++ [NL]
       ++ py "Go, SQL (Advanced)" ++ [NL].
Proof.
  destruct skills_line_rendering as (Hdrop & Hname & Hlevel & Hjoin & Hparts).
  split; [| split].
  - cbn [three_skills ResumeData.skills].
    rewrite Hdrop by reflexivity.
    rewrite Hjoin by discriminate.
    rewrite Hname by (reflexivity || discriminate).
    cbn [existsb Skill.name truthy orb py List.map list_ascii_of_string].
    rewrite Hjoin by discriminate.
    rewrite Hlevel by discriminate.
    reflexivity.
  - apply (Hparts three_skills). discriminate.
  - reflexivity.
Defined.

(** C9: the end-to-end example.  The response body is the UTF-8 encoding of
    "Ann Lee\nEngineer\n\nSkills\nGo\n", whatever the cosmetic fields are;
    no Experience, Education or Achievements line is in it. *)
Theorem ann_lee_exported_as_text (template color font : pystr) :
  _format_text_resume ann_lee
  = py "Ann Lee" ++ [NL] ++ py "Engineer" ++ [NL; NL] ++ py "Skills" ++ [NL]
    ++ py "Go" ++ [NL]
  /\ export_txt (ExportPayload.mk ann_lee template color font)
     = Some (mkResponse
               ["A"; "n"; "n"; " "; "L"; "e"; "e"; x0a;
                "E"; "n"; "g"; "i"; "n"; "e"; "e"; "r"; x0a; x0a;
                "S"; "k"; "i"; "l"; "l"; "s"; x0a; "G"; "o"; x0a]%byte
               (py "text/plain") (py "attachment; filename=resume.txt")).
Proof. split; reflexivity. Qed.

(** The lines of the output are the lines of the parts, trimmed as a whole,
    and the empty line that the closing newline opens. *)
Lemma output_lines (data : ResumeData.t) :
  lines_of (_format_text_resume data)
  = strip_lines (flat_map lines_of (parts data)) ++ [[]].
Proof.
  unfold _format_text_resume.
  change (strip (join [NL] (parts data)) ++ [NL])
    with (strip (join [NL] (parts data)) ++ NL :: []).
  unfold lines_of at 1. rewrite split_app_sep.
  fold (lines_of (strip (join [NL] (parts data)))).
  rewrite lines_of_strip. unfold parts at 1. cbn [app].
  rewrite lines_of_join. reflexivity.
Qed.

Lemma entry_line_empty (a b c : pystr) :
  a = [] -> b = [] -> c = [] -> join (py " - ") (nonempty [a; b; c]) = [].
Proof. now intros -> -> ->. Qed.

(** A section that is not empty: its heading, then the lines of the items up
    to one of them, that item's lines, and the lines of the rest. *)
Lemma section_middle {A} (f : A -> list pystr) (h : pystr)
    (l1 : list A) (x : A) (l2 : list A) :
  match l1 ++ x :: l2 with
  | [] => []
  | es => h :: flat_map f es
  end
  = [h] ++ flat_map f l1 ++ f x ++ flat_map f l2.
Proof.
  destruct (l1 ++ x :: l2) eqn:E.
  - now destruct l1.
  - rewrite <- E, flat_map_app. reflexivity.
Qed.

(** C10: an entry with nothing to show still gets its line.  For an
    experience item whose role, company and period are empty, and for an
    education item whose degree, school and period are empty, the parts hold
    an empty line at the item's place under the section heading, between the
    lines of the items before it and those of the items after it.  The lines
    of the output are the lines of the parts with the final trim applied:
    blank lines are taken only from the two ends of the text, so the empty
    lines of entries inside the text are lines of the output. *)
Theorem empty_entries_emit_lines (data : ResumeData.t) :
  (forall es1 e es2,
     ResumeData.experience data = es1 ++ e :: es2 ->
     ExperienceItem.role e = [] -> ExperienceItem.company e = [] ->
     ExperienceItem.period e = [] ->
     exists pre post,
       parts data
       = pre ++ [NL :: py "Experience"] ++ flat_map experience_lines es1
         ++ [[]] ++ List.map bullet (List.filter nonblank (ExperienceItem.bullets e))
         ++ flat_map experience_lines es2 ++ post)
  /\ (forall eds1 ed eds2,
        ResumeData.education data = eds1 ++ ed :: eds2 ->
        EducationItem.degree ed = [] -> EducationItem.school ed = [] ->
        EducationItem.period ed = [] ->
        exists pre post,
          parts data
          = pre ++ [NL :: py "Education"] ++ flat_map education_lines eds1
            ++ [[]]
            ++ (if truthy (EducationItem.details ed)
                then [bullet (EducationItem.details ed)] else [])
            ++ flat_map education_lines eds2 ++ post)
  /\ lines_of (_format_text_resume data)
     = strip_lines (flat_map lines_of (parts data)) ++ [[]].
Proof.
  split; [| split].
  - intros es1 e es2 He Hr Hc Hp.
    exists ([header data] ++ (if truthy (sub data) then [sub data] else [])
            ++ summary_part data),
           (education_part data ++ skills_part data ++ achievements_part data).
    unfold parts, experience_part. rewrite He.
    rewrite section_middle. unfold experience_lines at 2.
    rewrite (entry_line_empty _ _ _ Hr Hc Hp). now rewrite <- !app_assoc.
  - intros eds1 ed eds2 He Hd Hs Hp.
    exists ([header data] ++ (if truthy (sub data) then [sub data] else [])
            ++ summary_part data ++ experience_part data),
           (skills_part data ++ achievements_part data).
    unfold parts, education_part. rewrite He.
    rewrite section_middle. unfold education_lines at 2.
    rewrite (entry_line_empty _ _ _ Hd Hs Hp). now rewrite <- !app_assoc.
  - apply output_lines.
Qed.

Lemma empty_entries_emit_lines_witness :
  (exists pre post,
     parts empty_entries
     = pre ++ [NL :: py "Experience"] ++ [] ++ [[]] ++ []
       ++ flat_map experience_lines [ExperienceItem.mk [] [] [] []] ++ post)
  /\ lines_of (_format_text_resume empty_entries)
     = [py "Ann Lee"; []; py "Experience"; []; []; []; py "Education";
        py "BSc"; []].
Proof.
  destruct (empty_entries_emit_lines empty_entries) as (Hexp & _ & Hout).
  split.
  - apply (Hexp [] (ExperienceItem.mk [] [] [] [])
             [ExperienceItem.mk [] [] [] []]); reflexivity.
  - rewrite Hout; reflexivity.
Defined.

(** The final trim takes the empty lines that close the text: an empty
    entry with nothing after it leaves no line of its own in the output. *)
Example trailing_empty_entry_trimmed :
  parts lone_empty_entry = [py "Your Name"; NL :: py "Experience"; []]
  /\ _format_text_resume lone_empty_entry
     = py "Your Name" ++ [NL; NL] ++ py "Experience" ++ [NL].
Proof. split; reflexivity. Qed.

(** ** The PDF exporter *)

Lemma fold_draw_wrapped (ws : list pystr) (st : pdf_state) :
  fold_left draw_wrapped ws st
  = mkPdf (y st - 14 * Z.of_nat (length ws))%Z
      (canvas st
       ++ imap (fun i w => drawString x_margin (y st - 14 * Z.of_nat i)%Z w) ws).
Proof.
  revert st. induction ws as [|w ws IH]; intros st.
  - destruct st as [y0 ops]. cbn. f_equal; [lia | now rewrite app_nil_r].
  - cbn [fold_left]. rewrite IH. cbn [draw_wrapped y canvas length imap].
    f_equal; [lia |]. rewrite <- app_assoc. cbn [app]. do 2 f_equal.
    + f_equal. lia.
    + apply imap_ext. intros i x _. cbn. f_equal. lia.
Qed.

Lemma is_heading_spec (line : pystr) :
  is_heading line = true <-> strip line ∈ HEADINGS.
Proof. unfold is_heading. apply bool_decide_eq_true. Qed.

(** The cursor is never below the bottom margin when a line is started. *)
Lemma page_break_cursor (st : pdf_state) : (60 <= y (page_break st))%Z.
Proof.
  unfold page_break. destruct (Z.ltb_spec (y st) 60); [cbn; lia | assumption].
Qed.

(** Whatever a line of the text draws first, it draws at 60 or above. *)
Lemma line_starts_above_margin
    (simpleSplit : pystr -> pystr -> Z -> Z -> list pystr)
    (st : pdf_state) (line : pystr) :
  exists ops,
    canvas (draw_line simpleSplit st line) = canvas (page_break st) ++ ops
    /\ forall y0, head (cursors ops) = Some y0 -> (60 <= y0)%Z.
Proof.
  pose proof (page_break_cursor st) as Hy. unfold draw_line.
  destruct (is_heading line).
  - eexists. split; [reflexivity |]. cbn. intros y0 [= <-]. exact Hy.
  - rewrite fold_draw_wrapped. eexists. split; [reflexivity |].
    destruct (simpleSplit _ _ _ _) as [|w ws]; cbn; [discriminate |].
    intros y0 [= <-]. lia.
Qed.

(** C5, as the code has it: a line is drawn as a heading, in the bold font
    with the cursor moved by 18, exactly when the line with its leading and
    trailing whitespace removed is one of the five heading strings; the line
    is drawn as it stands.  Every other line is wrapped to the printable
    width of 532 at the body font, and its sub-lines are drawn one under the
    other, 14 apart. *)
Theorem heading_rendering
    (simpleSplit : pystr -> pystr -> Z -> Z -> list pystr)
    (st : pdf_state) (line : pystr) :
  (is_heading line = true <-> strip line ∈ HEADINGS)
  /\ (strip line ∈ HEADINGS ->
      draw_line simpleSplit st line
      = mkPdf (y (page_break st) - 18)%Z
          (canvas (page_break st)
           ++ [setFont (py "Helvetica-Bold") 12;
               drawString 40%Z (y (page_break st)) line;
               setFont (py "Helvetica") 11]))
  /\ (strip line ∉ HEADINGS ->
      let wrapped := simpleSplit line (py "Helvetica") 11%Z 532%Z in
      draw_line simpleSplit st line
      = mkPdf (y (page_break st) - 14 * Z.of_nat (length wrapped))%Z
          (canvas (page_break st)
           ++ imap (fun i w =>
                      drawString 40%Z (y (page_break st) - 14 * Z.of_nat i)%Z w)
                wrapped)).
Proof.
  split; [apply is_heading_spec | split].
  - intros Hh. unfold draw_line. apply is_heading_spec in Hh.
    now rewrite Hh.
  - intros Hn wrapped. unfold draw_line.
    destruct (is_heading line) eqn:E.
    + apply is_heading_spec in E. contradiction.
    + apply fold_draw_wrapped.
Qed.

Lemma heading_rendering_witness :
  draw_line (rl_simpleSplit helvetica) (mkPdf 700 []) (py "  Education ")
  = mkPdf 682 [setFont (py "Helvetica-Bold") 12;
               drawString 40%Z 700%Z (py "  Education ");
               setFont (py "Helvetica") 11]
  /\ draw_line (rl_simpleSplit helvetica) (mkPdf 700 []) (py "Go, SQL")
     = mkPdf 686 [drawString 40%Z 700%Z (py "Go, SQL")].
Proof.
  destruct (heading_rendering (rl_simpleSplit helvetica) (mkPdf 700 [])
              (py "  Education ")) as (_ & Hh & _).
  destruct (heading_rendering (rl_simpleSplit helvetica) (mkPdf 700 [])
              (py "Go, SQL")) as (_ & _ & Hw).
  split.
  - rewrite Hh; [reflexivity |].
    by_evaluation.
  - rewrite Hw; [reflexivity |].
    by_evaluation.
Defined.

(** C5, refuted as stated: the summary " Skills" gives the line " Skills",
    which is none of the five heading strings, and it is drawn as a heading:
    bold font, and the cursor moved from 720 by 18. *)
Lemma indented_line_drawn_as_heading :
  bool_decide (py " Skills" ∈ HEADINGS) = false
  /\ lines_of (_format_text_resume indented_skills)
     = [py "Your Name"; []; py "Summary"; py " Skills"; []]
  /\ draw_line (rl_simpleSplit helvetica) (mkPdf 720 []) (py " Skills")
     = mkPdf 702 [setFont (py "Helvetica-Bold") 12;
                  drawString 40%Z 720%Z (py " Skills");
                  setFont (py "Helvetica") 11]
  /\ pdf_calls (rl_simpleSplit helvetica) indented_skills
     = [setFont (py "Helvetica-Bold") 14;
        drawString 40%Z 752%Z (py "Your Name");
        setFont (py "Helvetica-Bold") 12;
        drawString 40%Z 738%Z (py "Summary");
        setFont (py "Helvetica") 11;
        setFont (py "Helvetica-Bold") 12;
        drawString 40%Z 720%Z (py " Skills");
        setFont (py "Helvetica") 11;
        showPage; save].
Proof. repeat apply conj; vm_compute; reflexivity. Qed.

(** C4, the code at the failing input.  A summary of sixty words, each wider
    than a line, is one line of the text and wraps into sixty sub-lines.  The
    margin is tested once, before the first of them; the rest are drawn 14
    apart with no test, so the forty-ninth is drawn at 48, below the margin
    of 60, and the last at -106, below the page, on the first page. *)
Theorem wrapped_lines_cross_margin :
  length (rl_simpleSplit helvetica (ResumeData.summary long_summary)
            (py "Helvetica") 11 532) = 60%nat
  /\ drawn_below 60 (pdf_calls (rl_simpleSplit helvetica) long_summary) = true
  /\ List.filter (fun y => (y <? 60)%Z)
       (cursors (pdf_calls (rl_simpleSplit helvetica) long_summary))
     = [48; 34; 20; 6; -8; -22; -36; -50; -64; -78; -92; -106]%Z
  /\ last (first_page (pdf_calls (rl_simpleSplit helvetica) long_summary))
     = Some (drawString 40 (-106) long_word).
Proof. repeat apply conj; vm_compute; reflexivity. Qed.

(** ** The endpoints and the cosmetic fields *)

Lemma response_eq_body (b1 b2 : option (list byte)) (m d : pystr) :
  match b1 with Some bs => Some (mkResponse bs m d) | None => None end
  = match b2 with Some bs => Some (mkResponse bs m d) | None => None end
  <-> b1 = b2.
Proof.
  destruct b1, b2; split; intros H; try discriminate H; try reflexivity.
  - now injection H as ->.
  - now injection H as ->.
Qed.

(** C7, as the code has it: the three cosmetic fields are never read.  For
    two payloads with the same [data], whatever their template, color and
    font: [export_txt] gives the same response; [export_docx] and
    [export_pdf] make the same sequence of library calls, so in one and the
    same ambient state they give the same response; and between two calls
    in any two ambient states their responses are the same exactly when the
    library writes the same bytes for that one sequence of calls.  A
    difference in the bytes thus comes from the library's ambient state
    alone, never from the cosmetic fields. *)
Theorem cosmetic_fields_never_read
    (World : Type)
    (docx_save : World -> list docx_op -> option (list byte))
    (canvas_save : World -> list canvas_op -> option (list byte))
    (simpleSplit : pystr -> pystr -> Z -> Z -> list pystr)
    (p1 p2 : ExportPayload.t) :
  ExportPayload.data p1 = ExportPayload.data p2 ->
  export_txt p1 = export_txt p2
  /\ docx_calls (ExportPayload.data p1) = docx_calls (ExportPayload.data p2)
  /\ pdf_calls simpleSplit (ExportPayload.data p1)
     = pdf_calls simpleSplit (ExportPayload.data p2)
  /\ (forall w,
        export_docx World docx_save w p1 = export_docx World docx_save w p2
        /\ export_pdf World canvas_save simpleSplit w p1
           = export_pdf World canvas_save simpleSplit w p2)
  /\ (forall w1 w2,
        (export_docx World docx_save w1 p1 = export_docx World docx_save w2 p2
         <-> docx_save w1 (docx_calls (ExportPayload.data p1))
             = docx_save w2 (docx_calls (ExportPayload.data p1)))
        /\ (export_pdf World canvas_save simpleSplit w1 p1
            = export_pdf World canvas_save simpleSplit w2 p2
            <-> canvas_save w1 (pdf_calls simpleSplit (ExportPayload.data p1))
                = canvas_save w2
                    (pdf_calls simpleSplit (ExportPayload.data p1)))).
Proof.
  intros Hd. unfold export_txt, export_docx, export_pdf. rewrite <- Hd.
  repeat split; try reflexivity; apply response_eq_body.
Qed.

Lemma cosmetic_fields_never_read_witness :
  ExportPayload.template ann_clean <> ExportPayload.template ann_bold
  /\ export_txt ann_clean = export_txt ann_bold
  /\ export_docx unit plain_docx tt ann_clean
     = export_docx unit plain_docx tt ann_bold
  /\ (export_pdf N stamped_canvas (rl_simpleSplit helvetica) 1 ann_clean
      = export_pdf N stamped_canvas (rl_simpleSplit helvetica) 2 ann_bold
      <-> stamped_canvas 1 (pdf_calls (rl_simpleSplit helvetica) ann_lee)
          = stamped_canvas 2 (pdf_calls (rl_simpleSplit helvetica) ann_lee)).
Proof.
  split; [discriminate |].
  destruct (cosmetic_fields_never_read unit plain_docx plain_canvas
              (rl_simpleSplit helvetica) ann_clean ann_bold eq_refl)
    as (Htxt & _ & _ & Hsame & _).
  destruct (cosmetic_fields_never_read N (fun _ => plain_docx tt)
              stamped_canvas (rl_simpleSplit helvetica) ann_clean ann_bold
              eq_refl)
    as (_ & _ & _ & _ & Hacross).
  split; [exact Htxt | split].
  - apply (Hsame tt).
  - apply (Hacross 1 2).
Defined.

(** C7, refuted as stated: two payloads with the same [data] and different
    cosmetic fields, exported as PDF by two calls at different times through
    a library that stamps its documents, get different bytes. *)
Lemma stamped_pdf_bytes_differ :
  ExportPayload.data ann_clean = ExportPayload.data ann_bold
  /\ ExportPayload.template ann_clean <> ExportPayload.template ann_bold
  /\ export_pdf N stamped_canvas (rl_simpleSplit helvetica) 1 ann_clean
     <> export_pdf N stamped_canvas (rl_simpleSplit helvetica) 2 ann_bold.
Proof.
  split; [reflexivity | split; [discriminate |]].
  vm_compute. intros H. discriminate H.
Qed.

(** ** The suggestion generator *)

Section SuggestFacts.

Variable str_title : pystr -> pystr.
Variable str_of : value -> pystr.

Lemma str_items_filter (items : list value) :
(exists strs, str_items (List.filter bool_value items) = Return strs)
<-> Forall str_or_falsy items.
Proof.
induction items as [|v items IH].
- split; [constructor | now exists []].
- cbn [List.filter]. destruct (bool_value v) eqn:Ev.
  + split.
    * intros [strs Hs]. destruct v; try discriminate Hs.
      cbn in Hs. destruct (str_items (List.filter bool_value items)) eqn:E;
        [| discriminate Hs].
      constructor; [right; eauto | apply IH; eauto].
    * intros Hall. inversion Hall as [|? ? [Hf | [s ->]] Hrest]; subst.
      -- congruence.
      -- apply IH in Hrest as [strs Hs]. cbn. rewrite Hs. cbn. eauto.
  + rewrite IH. split.
    * intros Hall. constructor; [now left | exact Hall].
    * now inversion 1.
Qed.

Lemma get_or_cases (ctx : gmap pystr value) (key : pystr) (d : value) :
(exists v, ctx !! key = Some v /\ bool_value v = true /\ get_or ctx key d = v)
\/ ((forall v, ctx !! key = Some v -> bool_value v = false)
    /\ get_or ctx key d = d).
Proof.
unfold get_or. destruct (ctx !! key) as [v|] eqn:E.
- destruct (bool_value v) eqn:Ev.
  + left. eauto.
  + right. split; [| reflexivity]. intros v' Hv'. congruence.
- right. split; [| reflexivity]. discriminate.
Qed.

Lemma title_of_returns (ctx : gmap pystr value) :
(exists s, title_of str_title
             (get_or ctx (py "title") (VStr (py "professional"))) = Return s)
<-> title_ok ctx.
Proof.
unfold title_ok.
destruct (get_or_cases ctx (py "title") (VStr (py "professional")))
  as [(v & Hv & Hb & ->) | [Hf ->]].
- split.
  + intros [s Hs] v' Hv'. assert (v' = v) as -> by congruence.
    destruct v; try discriminate Hs. right. eauto.
  + intros Hok. destruct (Hok v Hv) as [Hc | [s ->]]; [congruence |].
    cbn. eauto.
- split; [| cbn; eauto]. intros _ v Hv. left. auto.
Qed.

Lemma skills_join_returns (ctx : gmap pystr value) :
(exists strs,
   (items ← iterate (get_or ctx (py "skills") (VList []));
    str_items (List.filter bool_value items)) = Return strs)
<-> skills_ok ctx.
Proof.
unfold skills_ok.
destruct (get_or_cases ctx (py "skills") (VList []))
  as [(v & Hv & Hb & ->) | [Hf ->]].
- split.
  + intros [strs Hs] v' Hv'. assert (v' = v) as -> by congruence.
    right. destruct (iterate v) as [items|] eqn:Ei; [| discriminate Hs].
    exists items. split; [reflexivity |]. apply str_items_filter. eauto.
  + intros Hok. destruct (Hok v Hv) as [Hc | (items & Hi & Hall)];
      [congruence |].
    rewrite Hi. apply str_items_filter in Hall. exact Hall.
- split; [| cbn; eauto]. intros _ v Hv. left. auto.
Qed.

End SuggestFacts.

(** C6, as the code has it: a kind other than "summary" and "bullets" gets
    the 400 response with detail "Unsupported type"; "bullets" returns four
    bullets for every context; "summary" returns a text exactly when the
    title, if present and truthy, is a string and the skills, if present and
    truthy, can be iterated and hold only strings besides falsy items, and
    raises otherwise. *)
Theorem suggest_outcomes
    (str_title : pystr -> pystr) (str_of : value -> pystr)
    (ctx : gmap pystr value) :
  (forall t, t <> py "summary" -> t <> py "bullets" ->
     ai_suggest str_title str_of (SuggestPayload.mk ctx t)
     = Return (JSONResponse (py "Unsupported type") 400))
  /\ (exists bullets,
        ai_suggest str_title str_of (SuggestPayload.mk ctx (py "bullets"))
        = Return (bullets_body bullets) /\ length bullets = 4%nat)
  /\ match ai_suggest str_title str_of (SuggestPayload.mk ctx (py "summary")) with
     | Return (text_body _) => title_ok ctx /\ skills_ok ctx
     | Return _ => False
     | Raise _ => ~ (title_ok ctx /\ skills_ok ctx)
     end.
Proof.
  split; [| split].
  - intros t Hs Hb. unfold ai_suggest. cbn [SuggestPayload.type].
    now rewrite !bool_decide_eq_false_2.
  - eexists. split; reflexivity.
  - pose proof (skills_join_returns ctx) as Hs.
    pose proof (title_of_returns str_title ctx) as Ht.
    unfold ai_suggest.
    cbn [SuggestPayload.type SuggestPayload.context].
    rewrite bool_decide_eq_true_2 by reflexivity.
    unfold mbind, result_bind in *.
    destruct (iterate (get_or ctx (py "skills") (VList []))) as [items|e].
    + destruct (str_items (List.filter bool_value items)) as [strs|e].
      * destruct (title_of str_title
                    (get_or ctx (py "title") (VStr (py "professional"))))
          as [titled|e].
        -- cbn. split; [apply Ht | apply Hs]; eauto.
        -- intros [Hto _]. apply Ht in Hto as [s Hs']. discriminate Hs'.
      * intros [_ Hso]. apply Hs in Hso as [s Hs']. discriminate Hs'.
    + intros [_ Hso]. apply Hs in Hso as [s Hs']. discriminate Hs'.
Qed.

Lemma suggest_outcomes_witness :
  ai_suggest title_ascii str_scalar (SuggestPayload.mk engineer_ctx (py "bogus"))
  = Return (JSONResponse (py "Unsupported type") 400)
  /\ title_ok engineer_ctx /\ skills_ok engineer_ctx.
Proof.
  destruct (suggest_outcomes title_ascii str_scalar engineer_ctx)
    as (Hother & _ & Hsummary).
  split.
  - apply Hother; discriminate.
  - exact Hsummary.
Defined.

(** C6, refuted as stated: the context [{"title": 5}] is a mapping, the kind
    is "summary", and the handler raises: an [int] has no [title]. *)
Lemma numeric_title_raises :
  SuggestPayload.type numeric_title = py "summary"
  /\ SuggestPayload.context numeric_title !! py "title" = Some (VInt 5)
  /\ ai_suggest title_ascii str_scalar numeric_title = Raise AttributeError.
Proof. repeat apply conj; vm_compute; reflexivity. Qed.

(** The example of the spec: the title is capitalised and the skills are
    joined. *)
Example engineer_summary :
  ai_suggest title_ascii str_scalar
    (SuggestPayload.mk engineer_ctx (py "summary"))
  = Return (text_body
      (py "Engineer with a track record of delivering measurable outcomes. "
       ++ py "Skilled in Go, SQL. Known for clear communication, ownership, and continuous improvement. "
       ++ py "Seeking to leverage expertise to drive impact in a high-performing team.")).
Proof. vm_compute. reflexivity. Qed.

(** * Further properties of the code *)

(** ** The shape of the text *)

Lemma dropWhile_head {A} (p : A -> bool) (l : list A) (c : A) :
  head (dropWhile p l) = Some c -> p c = false.
Proof.
  induction l as [|x l IH]; simpl; [discriminate |].
  destruct (p x) eqn:E; [exact IH |]. now intros [= <-].
Qed.

Lemma last_rev {A} (l : list A) : last (rev l) = head l.
Proof.
  destruct l as [|x l]; [reflexivity |]. simpl. apply last_snoc.
Qed.

Lemma rstrip_last (s : pystr) (c : N) :
  last (rstrip s) = Some c -> is_space c = false.
Proof. unfold rstrip. rewrite last_rev. apply dropWhile_head. Qed.

Lemma dropWhile_last {A} (p : A -> bool) (l : list A) (c : A) :
  last (dropWhile p l) = Some c -> last l = Some c.
Proof.
  intros H. destruct (dropWhile_suffix p l) as [u Hu].
  rewrite Hu. destruct (dropWhile p l) as [|x t] eqn:E; [discriminate H |].
  rewrite last_app, H. reflexivity.
Qed.

(** X1: the text ends in one newline, and what precedes it neither starts
    nor ends with whitespace: the final trim leaves no blank edge, whatever
    the fields hold. *)
Theorem text_is_trimmed (data : ResumeData.t) :
  exists t,
    _format_text_resume data = t ++ [NL]
    /\ (forall c, head t = Some c -> is_space c = false)
    /\ (forall c, last t = Some c -> is_space c = false).
Proof.
  exists (strip (join [NL] (parts data))). split; [reflexivity | split].
  - intros c. apply dropWhile_head.
  - intros c H. apply dropWhile_last in H. now apply rstrip_last in H.
Qed.

(** A text that opens with a string free of whitespace at both ends keeps
    it when trimmed. *)
Lemma strip_keeps_prefix (c : N) (m R : pystr) :
  is_space c = false ->
  (forall z, last (c :: m) = Some z -> is_space z = false) ->
  strip ((c :: m) ++ R) = (c :: m) ++ rstrip R.
Proof.
  intros Hc Hz.
  change ((c :: m) ++ R) with ([] ++ c :: (m ++ R)).
  rewrite (strip_around _ _ _ Hc). cbn [lstrip dropWhile app]. f_equal.
  destruct m as [|x m'] using rev_ind; [reflexivity |].
  rewrite <- app_assoc. cbn [app].
  rewrite rstrip_app_stop; [now rewrite <- app_assoc |].
  apply Hz. rewrite app_comm_cons. apply last_snoc.
Qed.

(** X2: a name that is not empty, has no whitespace at either end and no
    newline inside is the first line of the text, unchanged. *)
Theorem name_is_first_line (data : ResumeData.t) :
  ResumeData.name data <> [] ->
  (forall c, head (ResumeData.name data) = Some c -> is_space c = false) ->
  (forall c, last (ResumeData.name data) = Some c -> is_space c = false) ->
  NL ∉ ResumeData.name data ->
  head (lines_of (_format_text_resume data)) = Some (ResumeData.name data).
Proof.
  intros Hne Hh Hl Hnl.
  unfold _format_text_resume, parts, header, str_or.
  destruct (ResumeData.name data) as [|c m] eqn:E; [congruence |].
  cbn [truthy app]. rewrite join_cons.
  set (R := flat_map (fun x => [NL] ++ x) _).
  rewrite strip_keeps_prefix by (try apply Hh; auto).
  destruct (rstrip_newline_tail R (bullets_tail NL _)) as [t Ht].
  rewrite <- app_assoc, Ht. unfold lines_of.
  rewrite split_app_sep, (split_no_sep _ _ Hnl). reflexivity.
Qed.

Lemma name_is_first_line_witness :
  head (lines_of (_format_text_resume ann_lee)) = Some (py "Ann Lee").
Proof.
  apply (name_is_first_line ann_lee).
  - discriminate.
  - intros c [= <-]. reflexivity.
  - intros c [= <-]. reflexivity.
  - by_evaluation.
Defined.

Lemma join_nonempty (sep : pystr) (l : list pystr) :
  l <> [] -> Forall (fun x => x <> []) l -> join sep l <> [].
Proof.
  destruct l as [|x t]; [congruence |]. intros _ Hall.
  inversion Hall as [|? ? Hx _]; subst. rewrite join_cons.
  destruct x; [congruence | discriminate].
Qed.

Lemma nonempty_all (l : list pystr) : Forall (fun x => x <> []) (nonempty l).
Proof.
  unfold nonempty. induction l as [|x l IH]; simpl; [constructor |].
  destruct x; simpl; [exact IH |]. constructor; [discriminate | exact IH].
Qed.

(** X3: the subheader.  With the four contact fields all empty there is no
    subheader part: the header is followed by the sections.  With any of
    them filled, the subheader is the second part and is not empty. *)
Theorem subheader_presence (data : ResumeData.t) :
  let rest := summary_part data ++ experience_part data
              ++ education_part data ++ skills_part data
              ++ achievements_part data in
  (ResumeData.title data = [] /\ ResumeData.email data = []
   /\ ResumeData.phone data = [] /\ ResumeData.location data = []
   -> parts data = header data :: rest)
  /\ (~ (ResumeData.title data = [] /\ ResumeData.email data = []
         /\ ResumeData.phone data = [] /\ ResumeData.location data = [])
      -> sub data <> [] /\ parts data = header data :: sub data :: rest).
Proof.
  intros rest. split.
  - intros (Ht & He & Hp & Hl). unfold parts, sub. now rewrite Ht, He, Hp, Hl.
  - intros Hsome.
    assert (Hsub : sub data <> []).
    { unfold sub. apply join_nonempty; [| apply nonempty_all].
      intros Hnil. apply Hsome. unfold nonempty in Hnil.
      destruct (ResumeData.title data), (ResumeData.email data),
        (ResumeData.phone data), (ResumeData.location data);
        try discriminate Hnil. auto. }
    split; [exact Hsub |]. unfold parts.
    apply truthy_true in Hsub. now rewrite Hsub.
Qed.

Lemma subheader_presence_witness :
  sub email_only = py "ann@example.org"
  /\ parts email_only = [py "Ann Lee"; py "ann@example.org"]
  /\ parts ResumeData.default = [py "Your Name"].
Proof.
  destruct (subheader_presence email_only) as [_ Hsome].
  destruct (subheader_presence ResumeData.default) as [Hnone _].
  split; [reflexivity | split].
  - apply Hsome. intros (_ & He & _). discriminate He.
  - apply Hnone. repeat split.
Defined.

(** ** The Word document against the text *)

Lemma skills_line_unnamed (sk : list Skill.t) :
  Forall (fun s => Skill.name s = []) sk -> skills_line sk = [].
Proof.
  intros H. unfold skills_line. rewrite filter_none; [reflexivity |].
  eapply Forall_impl; [exact H |]. intros s Hs. cbn. now rewrite Hs.
Qed.

(** X4: skills that all lack a name.  The text has no Skills section at
    all, while the Word document still gets its "Skills" heading, followed
    by an empty paragraph. *)
Theorem unnamed_skills_docx_heading (d : ResumeData.t) :
  ResumeData.skills d <> [] ->
  Forall (fun s => Skill.name s = []) (ResumeData.skills d) ->
  skills_part d = []
  /\ exists before after,
       docx_calls d
       = before ++ [add_heading (py "Skills") 1; add_paragraph [] style_default]
         ++ after.
Proof.
  intros Hne Hall. pose proof (skills_line_unnamed _ Hall) as Hline.
  unfold skills_part, docx_calls.
  destruct (ResumeData.skills d) as [|s sk]; [congruence |].
  rewrite !Hline. split; [reflexivity |].
  match goal with
  | |- exists before after, ?h ++ ?a ++ ?b ++ ?c ++ ?e ++ ?k ++ ?z = _ =>
      exists (h ++ a ++ b ++ c ++ e), z
  end.
  now rewrite <- !app_assoc.
Qed.

Lemma unnamed_skills_docx_heading_witness :
  _format_text_resume unnamed_skills = py "Ann Lee" ++ [NL]
  /\ exists before after,
       docx_calls unnamed_skills
       = before ++ [add_heading (py "Skills") 1; add_paragraph [] style_default]
         ++ after.
Proof.
  split; [reflexivity |].
  apply (unnamed_skills_docx_heading unnamed_skills).
  - discriminate.
  - repeat constructor.
Defined.

Lemma docx_sections_app (a b : list docx_op) :
  docx_sections (a ++ b) = docx_sections a ++ docx_sections b.
Proof. apply flat_map_app. Qed.

Lemma docx_sections_paragraphs {A} (f : A -> list docx_op) (l : list A) :
  (forall a, docx_sections (f a) = []) -> docx_sections (flat_map f l) = [].
Proof.
  intros Hf. induction l as [|a l IH]; [reflexivity |].
  cbn [flat_map]. now rewrite docx_sections_app, Hf, IH.
Qed.

Lemma docx_sections_map {A} (f : A -> pystr) (st : paragraph_style) (l : list A) :
  docx_sections (List.map (fun a => add_paragraph (f a) st) l) = [].
Proof. induction l as [|a l IH]; [reflexivity | exact IH]. Qed.

Lemma docx_experience_no_heading (e : ExperienceItem.t) :
  docx_sections (docx_experience e) = [].
Proof.
  unfold docx_experience.
  exact (docx_sections_map (fun b => b) style_List_Bullet _).
Qed.

Lemma docx_education_no_heading (ed : EducationItem.t) :
  docx_sections (docx_education ed) = [].
Proof.
  unfold docx_education. now destruct (truthy (EducationItem.details ed)).
Qed.

(** X5: the section headings of the Word document.  They come in the fixed
    order Summary, Experience, Education, Skills, Achievements, each one
    present exactly when its field is not empty, and nothing else is a
    level-1 heading, whatever the entries hold. *)
Theorem docx_section_order (d : ResumeData.t) :
  docx_sections (docx_calls d)
  = (if truthy (ResumeData.summary d) then [py "Summary"] else [])
    ++ (match ResumeData.experience d with [] => [] | _ => [py "Experience"] end)
    ++ (match ResumeData.education d with [] => [] | _ => [py "Education"] end)
    ++ (match ResumeData.skills d with [] => [] | _ => [py "Skills"] end)
    ++ (match ResumeData.achievements d with
        | [] => []
        | _ => [py "Achievements"]
        end).
Proof.
  unfold docx_calls. rewrite !docx_sections_app.
  assert (H0 : docx_sections
                 (if truthy (sub d) then [add_paragraph (sub d) style_Normal]
                  else []) = [])
    by now destruct (truthy (sub d)).
  assert (H1 : docx_sections
                 (if truthy (ResumeData.summary d)
                  then [add_heading (py "Summary") 1;
                        add_paragraph (ResumeData.summary d) style_default]
                  else [])
               = if truthy (ResumeData.summary d) then [py "Summary"] else [])
    by now destruct (truthy (ResumeData.summary d)).
  rewrite H0, H1.
  change (docx_sections
            [normal_font (py "Inter") 10;
             add_heading (str_or (ResumeData.name d) (py "Your Name")) 0])
    with (@nil pystr).
  cbn [app]. f_equal. f_equal; [| f_equal; [| f_equal]].
  - destruct (ResumeData.experience d) as [|e es]; [reflexivity |].
    change (docx_sections (add_heading (py "Experience") 1
                           :: flat_map docx_experience (e :: es)))
      with (py "Experience"
            :: docx_sections (flat_map docx_experience (e :: es))).
    now rewrite (docx_sections_paragraphs _ _ docx_experience_no_heading).
  - destruct (ResumeData.education d) as [|e es]; [reflexivity |].
    change (docx_sections (add_heading (py "Education") 1
                           :: flat_map docx_education (e :: es)))
      with (py "Education"
            :: docx_sections (flat_map docx_education (e :: es))).
    now rewrite (docx_sections_paragraphs _ _ docx_education_no_heading).
  - now destruct (ResumeData.skills d).
  - destruct (ResumeData.achievements d) as [|a acs]; [reflexivity |].
    change (docx_sections (add_heading (py "Achievements") 1
              :: List.map (fun a => add_paragraph a style_List_Bullet)
                   (List.filter nonblank (a :: acs))))
      with (py "Achievements"
            :: docx_sections
                 (List.map (fun a => add_paragraph a style_List_Bullet)
                    (List.filter nonblank (a :: acs)))).
    now rewrite (docx_sections_map (fun a => a)).
Qed.

(** ** What the PDF exporter puts on the pages *)

Lemma drawn_texts_app (a b : list canvas_op) :
  drawn_texts (a ++ b) = drawn_texts a ++ drawn_texts b.
Proof. apply flat_map_app. Qed.

Lemma cursors_app (a b : list canvas_op) :
  cursors (a ++ b) = cursors a ++ cursors b.
Proof. apply flat_map_app. Qed.

Lemma drawn_texts_wrapped (ws : list pystr) (st : pdf_state) :
  drawn_texts (canvas (fold_left draw_wrapped ws st))
  = drawn_texts (canvas st) ++ ws.
Proof.
  revert st. induction ws as [|w ws IH]; intros st; cbn [fold_left].
  - now rewrite app_nil_r.
  - rewrite IH. cbn [draw_wrapped canvas]. rewrite drawn_texts_app.
    cbn. now rewrite <- app_assoc.
Qed.

Lemma drawn_texts_page_break (st : pdf_state) :
  drawn_texts (canvas (page_break st)) = drawn_texts (canvas st).
Proof.
  unfold page_break. destruct (y st <? 60)%Z; [| reflexivity].
  cbn [canvas]. rewrite drawn_texts_app. cbn. apply app_nil_r.
Qed.

Section Pages.

Variable simpleSplit : pystr -> pystr -> Z -> Z -> list pystr.

Lemma drawn_texts_line (st : pdf_state) (line : pystr) :
  drawn_texts (canvas (draw_line simpleSplit st line))
  = drawn_texts (canvas st) ++ line_texts simpleSplit line.
Proof.
  unfold draw_line, line_texts. destruct (is_heading line).
  - cbn [draw_heading canvas]. rewrite drawn_texts_app, drawn_texts_page_break.
    reflexivity.
  - rewrite drawn_texts_wrapped, drawn_texts_page_break. reflexivity.
Qed.

Lemma drawn_texts_loop (ls : list pystr) (st : pdf_state) :
  drawn_texts (canvas (fold_left (draw_line simpleSplit) ls st))
  = drawn_texts (canvas st) ++ flat_map (line_texts simpleSplit) ls.
Proof.
  revert st. induction ls as [|l ls IH]; intros st; cbn [fold_left flat_map].
  - now rewrite app_nil_r.
  - rewrite IH, drawn_texts_line. now rewrite <- app_assoc.
Qed.

(** X6: pagination loses nothing and reorders nothing.  The texts drawn,
    page after page, are the lines of the text in order: a heading line as
    it stands, any other line as the sub-lines [simpleSplit] returns for
    it. *)
Theorem pdf_draws_every_line (data : ResumeData.t) :
  drawn_texts (pdf_calls simpleSplit data)
  = flat_map (line_texts simpleSplit) (lines_of (_format_text_resume data)).
Proof.
  unfold pdf_calls, pdf_loop.
  rewrite drawn_texts_app, drawn_texts_loop. cbn. apply app_nil_r.
Qed.

(** The cursors a run of sub-lines is drawn at, down from the state's. *)
Lemma wrapped_cursor_bounds (lo : Z) (ws : list pystr) (st : pdf_state) :
  Forall (fun c => lo <= c <= 752)%Z (cursors (canvas st)) ->
  (y st <= 752)%Z ->
  (lo + 14 * Z.of_nat (length ws) - 14 <= y st)%Z ->
  Forall (fun c => lo <= c <= 752)%Z
    (cursors (canvas (fold_left draw_wrapped ws st)))
  /\ (y (fold_left draw_wrapped ws st) <= 752)%Z.
Proof.
  revert st. induction ws as [|w ws IH]; intros st Hc Hy Hlo.
  - now split.
  - cbn [fold_left]. cbn [length] in Hlo. apply IH.
    + cbn [draw_wrapped canvas]. rewrite cursors_app.
      apply Forall_app. split; [exact Hc |].
      repeat constructor; lia.
    + cbn. lia.
    + cbn. lia.
Qed.

Lemma page_break_state (lo : Z) (st : pdf_state) :
  Forall (fun c => lo <= c <= 752)%Z (cursors (canvas st)) ->
  (y st <= 752)%Z ->
  Forall (fun c => lo <= c <= 752)%Z (cursors (canvas (page_break st)))
  /\ (60 <= y (page_break st) <= 752)%Z.
Proof.
  intros Hc Hy. unfold page_break. destruct (Z.ltb_spec (y st) 60).
  - cbn [canvas y]. rewrite cursors_app. cbn. rewrite app_nil_r.
    split; [exact Hc | lia].
  - split; [exact Hc | lia].
Qed.

(** X7: how far below the margin the cursor can get.  If no line of the
    text wraps into more than [n] sub-lines, every [drawString] has its
    cursor between [74 - 14 n] and the top margin 752.  With no line wrapped
    ([n = 1]) nothing is drawn below the bottom margin of 60. *)
Theorem cursor_bounds (data : ResumeData.t) (n : nat) :
  (1 <= n)%nat ->
  Forall (fun line =>
            (length (simpleSplit line (py "Helvetica") 11 532) <= n)%nat)
    (lines_of (_format_text_resume data)) ->
  Forall (fun c => 74 - 14 * Z.of_nat n <= c <= 752)%Z
    (cursors (pdf_calls simpleSplit data)).
Proof.
  intros Hn Hlines. unfold pdf_calls, pdf_loop.
  rewrite cursors_app. cbn [cursors flat_map app]. rewrite app_nil_r.
  set (lo := (74 - 14 * Z.of_nat n)%Z).
  assert (Hinv : forall ls st,
    Forall (fun line =>
              (length (simpleSplit line (py "Helvetica") 11 532) <= n)%nat) ls ->
    Forall (fun c => lo <= c <= 752)%Z (cursors (canvas st)) ->
    (y st <= 752)%Z ->
    Forall (fun c => lo <= c <= 752)%Z
      (cursors (canvas (fold_left (draw_line simpleSplit) ls st)))).
  { induction ls as [|l ls IH]; intros st Hls Hc Hy; [exact Hc |].
    inversion Hls as [|? ? Hl Hrest]; subst. cbn [fold_left].
    destruct (page_break_state lo st Hc Hy) as [Hc' Hy'].
    unfold draw_line. destruct (is_heading l).
    - apply IH; [exact Hrest | | cbn; lia].
      cbn [draw_heading canvas]. rewrite cursors_app.
      apply Forall_app. split; [exact Hc' |].
      cbn. repeat constructor; unfold lo; lia.
    - change (width - 2 * x_margin)%Z with 532%Z.
      destruct (wrapped_cursor_bounds lo
                  (simpleSplit l (py "Helvetica") 11 532) (page_break st))
        as [Hc'' Hy'']; [exact Hc' | lia | unfold lo; lia |].
      now apply IH. }
  apply Hinv; [exact Hlines | constructor | cbn; lia].
Qed.

End Pages.

Lemma cursor_bounds_witness :
  Forall (fun c => 60 <= c <= 752)%Z
    (cursors (pdf_calls (rl_simpleSplit helvetica) ann_lee)).
Proof.
  apply (cursor_bounds (rl_simpleSplit helvetica) ann_lee 1).
  - lia.
  - repeat constructor; vm_compute; lia.
Defined.

(** ** More on the suggestion generator *)

Lemma iterate_raises (v : value) (e : exn) :
  iterate v = Raise e -> e = TypeError.
Proof. destruct v; cbn; congruence. Qed.

Lemma str_items_raises (l : list value) (e : exn) :
  str_items l = Raise e -> e = TypeError.
Proof.
  induction l as [|v l IH]; [discriminate |].
  destruct v; cbn; try congruence.
  destruct (str_items l); cbn; [discriminate | intros [= <-]; now apply IH].
Qed.

Lemma str_items_strings (l : list pystr) :
  str_items (List.filter bool_value (List.map VStr l))
  = Return (List.filter truthy l).
Proof.
  induction l as [|s l IH]; [reflexivity |].
  cbn [List.map List.filter bool_value]. destruct (truthy s); [| exact IH].
  cbn [str_items]. now rewrite IH.
Qed.

Lemma filter_all {A} (f : A -> bool) (l : list A) :
  Forall (fun a => f a = true) l -> List.filter f l = l.
Proof.
  induction 1 as [|a l Ha _ IH]; [reflexivity |].
  cbn. now rewrite Ha, IH.
Qed.

Lemma get_or_truthy (ctx : gmap pystr value) (key : pystr) (v d : value) :
  ctx !! key = Some v -> bool_value v = true -> get_or ctx key d = v.
Proof. intros H Hb. unfold get_or. now rewrite H, Hb. Qed.

Lemma get_or_default (ctx : gmap pystr value) (key : pystr) (d : value) :
  (forall v, ctx !! key = Some v -> bool_value v = false) ->
  get_or ctx key d = d.
Proof.
  intros H. unfold get_or. destruct (ctx !! key) as [v|]; [| reflexivity].
  now rewrite (H v eq_refl).
Qed.

Section SuggestMore.

Variable str_title : pystr -> pystr.
Variable str_of : value -> pystr.

Lemma ai_suggest_summary (ctx : gmap pystr value) :
  ai_suggest str_title str_of (SuggestPayload.mk ctx (py "summary"))
  = (items ← iterate (get_or ctx (py "skills") (VList []));
     strs ← str_items (List.filter bool_value items);
     titled ← title_of str_title
                (get_or ctx (py "title") (VStr (py "professional")));
     mret (text_body (summary_text titled (join (py ", ") strs)))).
Proof. reflexivity. Qed.

(** X8: which exception a summary request raises.  The skills are joined
    before the title is capitalised, so skills of the wrong type raise
    [TypeError] whatever the title is, and [AttributeError] is raised only
    when the skills are acceptable and the title is not. *)
Theorem summary_exception_order (ctx : gmap pystr value) :
  match ai_suggest str_title str_of (SuggestPayload.mk ctx (py "summary")) with
  | Raise TypeError => ~ skills_ok ctx
  | Raise AttributeError => skills_ok ctx /\ ~ title_ok ctx
  | Return _ => skills_ok ctx /\ title_ok ctx
  end.
Proof.
  pose proof (skills_join_returns ctx) as Hs.
  pose proof (title_of_returns str_title ctx) as Ht.
  rewrite ai_suggest_summary. unfold mbind, result_bind in *.
  destruct (iterate (get_or ctx (py "skills") (VList []))) as [items|e] eqn:Ei.
  - destruct (str_items (List.filter bool_value items)) as [strs|e] eqn:Es.
    + assert (Hok : skills_ok ctx) by (apply Hs; eauto).
      destruct (title_of str_title
                  (get_or ctx (py "title") (VStr (py "professional"))))
        as [titled|e] eqn:Et.
      * cbn. split; [exact Hok | apply Ht; eauto].
      * assert (e = AttributeError) as ->.
        { revert Et. unfold title_of.
          destruct (get_or ctx (py "title") (VStr (py "professional")));
            congruence. }
        split; [exact Hok |].
        intros Hto. apply Ht in Hto as [s Hs']. discriminate Hs'.
    + rewrite (str_items_raises _ _ Es).
      intros Hso. apply Hs in Hso as [s Hs']. discriminate Hs'.
  - rewrite (iterate_raises _ _ Ei).
    intros Hso. apply Hs in Hso as [s Hs']. discriminate Hs'.
Qed.

(** X9: skills given as one string.  A non-empty string is iterated
    character by character, so the sentence lists its characters, joined
    with ", ". *)
Theorem skills_string_is_split (ctx : gmap pystr value) (t s : pystr) :
  ctx !! py "title" = Some (VStr t) -> t <> [] ->
  ctx !! py "skills" = Some (VStr s) -> s <> [] ->
  ai_suggest str_title str_of (SuggestPayload.mk ctx (py "summary"))
  = Return (text_body
      (summary_text (str_title t)
         (join (py ", ") (List.map (fun c => [c]) s)))).
Proof.
  intros Ht Htne Hs Hsne. rewrite ai_suggest_summary.
  rewrite (get_or_truthy _ _ _ _ Hs) by now apply truthy_true.
  rewrite (get_or_truthy _ _ _ _ Ht) by now apply truthy_true.
  cbn [iterate]. unfold mbind, result_bind.
  replace (List.map (fun c => VStr [c]) s)
    with (List.map VStr (List.map (fun c => [c]) s))
    by (rewrite List.map_map; reflexivity).
  rewrite str_items_strings, filter_all; [reflexivity |].
  apply Forall_map. now apply Forall_forall.
Qed.

(** X10: skills given as a list of strings.  The empty strings are left
    out and the others are joined with ", " in the order given. *)
Theorem skills_list_is_filtered (ctx : gmap pystr value) (t : pystr)
    (l : list pystr) :
  ctx !! py "title" = Some (VStr t) -> t <> [] ->
  ctx !! py "skills" = Some (VList (List.map VStr l)) -> l <> [] ->
  ai_suggest str_title str_of (SuggestPayload.mk ctx (py "summary"))
  = Return (text_body
      (summary_text (str_title t) (join (py ", ") (List.filter truthy l)))).
Proof.
  intros Ht Htne Hs Hlne. rewrite ai_suggest_summary.
  rewrite (get_or_truthy _ _ _ _ Hs)
    by (cbn; destruct l; [congruence | reflexivity]).
  rewrite (get_or_truthy _ _ _ _ Ht) by now apply truthy_true.
  cbn [iterate]. unfold mbind, result_bind.
  now rewrite str_items_strings.
Qed.

(** X11: missing keys.  When the keys the handler reads are absent from the
    context, or hold falsy values such as [None], [""] or [0], a summary is
    written for the title "professional" with an empty skill list, and the
    bullets for "Role" at "Company". *)
Theorem suggest_defaults (ctx : gmap pystr value) :
  (forall k v, k ∈ [py "title"; py "skills"; py "role"; py "company"] ->
     ctx !! k = Some v -> bool_value v = false) ->
  ai_suggest str_title str_of (SuggestPayload.mk ctx (py "summary"))
  = Return (text_body (summary_text (str_title (py "professional")) []))
  /\ ai_suggest str_title str_of (SuggestPayload.mk ctx (py "bullets"))
     = Return (bullets_body (bullets_text (py "Role") (py "Company"))).
Proof.
  intros H.
  assert (Hk : forall k d,
            k ∈ [py "title"; py "skills"; py "role"; py "company"] ->
            get_or ctx k d = d).
  { intros k d Hin. apply get_or_default. intros v. now apply H. }
  split.
  - rewrite ai_suggest_summary, !Hk by (rewrite !elem_of_cons; auto).
    reflexivity.
  - unfold ai_suggest. cbn [SuggestPayload.type SuggestPayload.context].
    rewrite bool_decide_eq_false_2 by discriminate.
    rewrite bool_decide_eq_true_2 by reflexivity.
    rewrite !Hk by (rewrite !elem_of_cons; auto).
    reflexivity.
Qed.

End SuggestMore.

Lemma skills_string_is_split_witness :
  ai_suggest title_ascii str_scalar
    (SuggestPayload.mk skills_as_string (py "summary"))
  = Return (text_body (summary_text (py "Engineer") (py "G, o"))).
Proof.
  apply (skills_string_is_split title_ascii str_scalar skills_as_string
           (py "engineer") (py "Go")); (reflexivity || discriminate).
Defined.

Lemma skills_list_is_filtered_witness :
  ai_suggest title_ascii str_scalar
    (SuggestPayload.mk skills_with_gap (py "summary"))
  = Return (text_body (summary_text (py "Engineer") (py "Go, SQL"))).
Proof.
  apply (skills_list_is_filtered title_ascii str_scalar skills_with_gap
           (py "engineer") [py "Go"; []; py "SQL"]);
    (reflexivity || discriminate).
Defined.

Lemma suggest_defaults_witness :
  ai_suggest title_ascii str_scalar (SuggestPayload.mk ∅ (py "bullets"))
  = Return (bullets_body (bullets_text (py "Role") (py "Company"))).
Proof.
  apply (suggest_defaults title_ascii str_scalar ∅).
  intros k v _ Hv. rewrite lookup_empty in Hv. discriminate Hv.
Defined.

(** ** The bytes of the plain-text export *)

Lemma utf8_char_none (c : N) : utf8_char c = None <-> surrogate c = true.
Proof.
  unfold utf8_char, surrogate.
  assert (Hlow : c < 2048 -> (55296 <=? c) && (c <=? 57343) = true -> False).
  { intros Hc H. apply andb_true_iff in H as [H _].
    apply N.leb_le in H. lia. }
  destruct (N.ltb_spec c 128) as [Hc | Hc];
    [split; [discriminate | intros Hs; exfalso; apply Hlow; [lia | exact Hs]] |].
  destruct (N.ltb_spec c 2048) as [Hc' | Hc'];
    [split; [discriminate | intros Hs; exfalso; apply Hlow; [lia | exact Hs]] |].
  destruct ((55296 <=? c) && (c <=? 57343)); [now split |].
  destruct (c <? 65536); split; discriminate.
Qed.

Lemma utf8_encode_some (s : pystr) :
  is_Some (utf8_encode s) <-> Forall (fun c => surrogate c = false) s.
Proof.
  induction s as [|c s IH]; cbn [utf8_encode].
  - split; [constructor | eauto].
  - destruct (utf8_char c) as [b|] eqn:Ec.
    + assert (Hc : surrogate c = false).
      { destruct (surrogate c) eqn:E; [| reflexivity].
        apply utf8_char_none in E. congruence. }
      destruct (utf8_encode s) as [bs|].
      * split; [| eauto]. intros _. constructor; [exact Hc |].
        apply IH. eauto.
      * split; [intros [x Hx]; discriminate Hx |].
        intros Hall. inversion Hall as [|? ? _ Hs]; subst.
        apply IH in Hs as [x Hx]. discriminate Hx.
    + apply utf8_char_none in Ec. split.
      * intros [x Hx]. discriminate Hx.
      * intros Hall. inversion Hall; subst. congruence.
Qed.

(** X12: when the plain-text export fails.  [export_txt] returns a response
    exactly when the text holds no surrogate code point; a lone surrogate
    anywhere in it makes [encode] raise and no response is produced. *)
Theorem export_txt_succeeds (payload : ExportPayload.t) :
  is_Some (export_txt payload)
  <-> Forall (fun c => surrogate c = false)
        (_format_text_resume (ExportPayload.data payload)).
Proof.
  rewrite <- utf8_encode_some. unfold export_txt.
  destruct (utf8_encode _); split; intros [x Hx]; try discriminate Hx; eauto.
Qed.

Lemma utf8_encode_ascii (s : pystr) :
  Forall (fun c => (c <? 128) = true) s ->
  utf8_encode s = Some (List.map byte_of s).
Proof.
  induction 1 as [|c s Hc _ IH]; [reflexivity |].
  cbn [utf8_encode List.map]. unfold utf8_char. now rewrite Hc, IH.
Qed.

(** X13: an ASCII text is exported byte for byte.  When every code point
    of the text is below 128, the response body has one byte per character,
    the character's code, so as many bytes as the text has characters. *)
Theorem export_txt_ascii (payload : ExportPayload.t) :
  Forall (fun c => (c <? 128) = true)
    (_format_text_resume (ExportPayload.data payload)) ->
  exists r,
    export_txt payload = Some r
    /\ body r = List.map byte_of
                  (_format_text_resume (ExportPayload.data payload))
    /\ length (body r)
       = length (_format_text_resume (ExportPayload.data payload)).
Proof.
  intros Hascii. unfold export_txt. rewrite (utf8_encode_ascii _ Hascii).
  eexists. split; [reflexivity |]. cbn [body]. split; [reflexivity |].
  apply List.length_map.
Qed.

Lemma export_txt_ascii_witness :
  exists r,
    export_txt ann_clean = Some r
    /\ body r = List.map byte_of (_format_text_resume ann_lee)
    /\ length (body r) = 28%nat.
Proof.
  apply (export_txt_ascii ann_clean). by_evaluation.
Defined.

(** ** The diagnostic endpoint *)

Lemma env_flag_cases (environ : gmap pystr pystr) (key : pystr) :
  (env_flag environ key = VStr (check_mark ++ py " Set")
   /\ exists v, environ !! key = Some v /\ v <> [])
  \/ (env_flag environ key = VStr (cross_mark ++ py " Not Set")
      /\ (environ !! key = None \/ environ !! key = Some [])).
Proof.
  unfold env_flag. destruct (environ !! key) as [v|]; [| right; auto].
  destruct v as [|c v]; [right; auto |].
  left. split; [reflexivity |]. eexists. split; [reflexivity | discriminate].
Qed.

Lemma probe_keeps_backend (imp : import_outcome) (r : status_response) :
  backend (probe_database imp r) = backend r.
Proof.
  destruct imp as [e | [db|]]; cbn; [| | reflexivity].
  - unfold import_handlers. now destruct (is_ImportError e).
  - destruct (Database.name db) as [|v|e];
      [| | unfold import_handlers; now destruct (is_ImportError e)];
      now destruct (Database.list_collection_names db).
Qed.

(** X14: what the response says about the configuration.  The backend is
    always reported running, and the two fields [database_url] and
    [database_name] say "Set" or "Not Set" after the environment variables
    alone, set meaning present and not empty: what the import did, and the
    name the handle has, never reach these fields. *)
Theorem status_reports_environment
    (imp : import_outcome) (environ : gmap pystr pystr) :
  let r := test_database imp environ in
  backend r = check_mark ++ py " Running"
  /\ ((database_url r = VStr (check_mark ++ py " Set")
       /\ exists v, environ !! py "DATABASE_URL" = Some v /\ v <> [])
      \/ (database_url r = VStr (cross_mark ++ py " Not Set")
          /\ (environ !! py "DATABASE_URL" = None
              \/ environ !! py "DATABASE_URL" = Some [])))
  /\ ((database_name r = VStr (check_mark ++ py " Set")
       /\ exists v, environ !! py "DATABASE_NAME" = Some v /\ v <> [])
      \/ (database_name r = VStr (cross_mark ++ py " Not Set")
          /\ (environ !! py "DATABASE_NAME" = None
              \/ environ !! py "DATABASE_NAME" = Some []))).
Proof.
  cbn zeta. unfold test_database. cbn [backend database_url database_name
    set_database_url set_database_name].
  split; [now rewrite probe_keeps_backend |].
  split; apply env_flag_cases.
Qed.

(** X15: the collections listed.  At most ten are reported, the first ten
    the handle lists; and a non-empty list is only reported together with
    the status "Connected" and the database state "Connected & Working". *)
Theorem status_collections
    (imp : import_outcome) (environ : gmap pystr pystr) :
  let r := test_database imp environ in
  (length (collections r) <= 10)%nat
  /\ (collections r <> [] ->
      connection_status r = py "Connected"
      /\ database r = check_mark ++ py " Connected & Working")
  /\ (forall db names,
        imp = inr (Some db) ->
        (forall e, Database.name db <> attribute_raises e) ->
        Database.list_collection_names db = inr names ->
        collections r = take 10 names).
Proof.
  cbn zeta. unfold test_database.
  cbn [collections connection_status database
       set_database_url set_database_name].
  destruct imp as [e | [db|]]; cbn [probe_database].
  - unfold import_handlers. destruct (is_ImportError e); cbn;
      (split; [lia | split; [congruence | discriminate]]).
  - destruct (Database.name db) as [|v|e] eqn:En.
    + destruct (Database.list_collection_names db) as [e|names] eqn:El; cbn.
      * split; [lia | split; [congruence |]]. intros ? ? [= <-]. congruence.
      * split; [rewrite length_take; lia | split; [auto |]].
        intros ? ? [= <-] _. congruence.
    + destruct (Database.list_collection_names db) as [e|names] eqn:El; cbn.
      * split; [lia | split; [congruence |]]. intros ? ? [= <-]. congruence.
      * split; [rewrite length_take; lia | split; [auto |]].
        intros ? ? [= <-] _. congruence.
    + unfold import_handlers. destruct (is_ImportError e); cbn;
        (split; [lia | split; [congruence |]]);
        intros ? ? [= <-] Hn; now destruct (Hn e).
  - cbn. split; [lia | split; [congruence | discriminate]].
Qed.

Lemma status_collections_witness :
  collections (test_database (inr (Some twelve_collections)) environ_url_only)
  = take 10 (List.map (fun n => py "c" ++ [48 + n]) [0;1;2;3;4;5;6;7;8;9;1;2])
  /\ length
       (collections
          (test_database (inr (Some twelve_collections)) environ_url_only))
     = 10%nat.
Proof.
  destruct (status_collections (inr (Some twelve_collections))
              environ_url_only) as (_ & _ & Htake).
  split; [| reflexivity].
  apply (Htake twelve_collections); [reflexivity | discriminate | reflexivity].
Defined.

Lemma handlers_keep_status (e : exception) (r : status_response) :
  connection_status (import_handlers e r) = connection_status r.
Proof. unfold import_handlers. now destruct (is_ImportError e). Qed.

Lemma handlers_database (e : exception) (r : status_response) :
  database (import_handlers e r) <> cross_mark ++ py " Not Available".
Proof.
  unfold import_handlers. destruct (is_ImportError e); intros H;
    cbv [database set_database cross_mark py List.map list_ascii_of_string
         N_of_ascii app] in H; discriminate H.
Qed.

(** X16: when the response says "Connected".  The connection status is
    "Connected" exactly when the import bound [db] to a handle whose [name]
    could be read or is missing; it is "Not Connected" otherwise, also when
    the handle exists and reading [name] raised.  The database state never
    keeps its initial value "Not Available": every path overwrites it. *)
Theorem status_connection
    (imp : import_outcome) (environ : gmap pystr pystr) :
  let r := test_database imp environ in
  (connection_status r = py "Connected"
   <-> exists db, imp = inr (Some db)
                  /\ forall e, Database.name db <> attribute_raises e)
  /\ (connection_status r = py "Connected"
      \/ connection_status r = py "Not Connected")
  /\ database r <> cross_mark ++ py " Not Available".
Proof.
  cbn zeta. unfold test_database.
  cbn [collections connection_status database
       set_database_url set_database_name].
  destruct imp as [e | [db|]]; cbn [probe_database].
  - rewrite handlers_keep_status. split; [| split].
    + split; [discriminate | intros (db & Hdb & _); discriminate Hdb].
    + now right.
    + apply handlers_database.
  - destruct (Database.name db) as [|v|e] eqn:En.
    + split; [| split].
      * split; [| now destruct (Database.list_collection_names db)].
        intros _. exists db. split; [reflexivity | congruence].
      * left. now destruct (Database.list_collection_names db).
      * destruct (Database.list_collection_names db); discriminate.
    + split; [| split].
      * split; [| now destruct (Database.list_collection_names db)].
        intros _. exists db. split; [reflexivity | congruence].
      * left. now destruct (Database.list_collection_names db).
      * destruct (Database.list_collection_names db); discriminate.
    + rewrite handlers_keep_status. split; [| split].
      * split; [discriminate |].
        intros (db' & Hdb & Hn). injection Hdb as <-. now destruct (Hn e).
      * now right.
      * apply handlers_database.
  - split; [| split].
    + split; [discriminate | intros (db & Hdb & _); discriminate Hdb].
    + now right.
    + discriminate.
Qed.

Lemma take_length_le {A} (n : nat) (l : list A) : (length (take n l) <= n)%nat.
Proof. rewrite length_take. lia. Qed.

(** X17: the error text is cut.  Whatever message an exception carries,
    only its first fifty characters are reported, so the database state is
    never longer than 75 code points. *)
Theorem status_database_bounded
    (imp : import_outcome) (environ : gmap pystr pystr) :
  (length (database (test_database imp environ)) <= 75)%nat.
Proof.
  unfold test_database.
  cbn [database set_database_url set_database_name].
  assert (Hh : forall e r, (length (database (import_handlers e r)) <= 75)%nat).
  { intros e r. unfold import_handlers. destruct (is_ImportError e); cbn.
    - lia.
    - pose proof (take_length_le 50 (message e)). lia. }
  destruct imp as [e | [db|]]; cbn [probe_database]; [apply Hh | | cbn; lia].
  destruct (Database.name db) as [|v|e]; [| | apply Hh];
    (destruct (Database.list_collection_names db) as [e|names]; cbn;
     [pose proof (take_length_le 50 (message e)); lia | lia]).
Qed.

(** ** From the sections of the text to the headings of the PDF *)

(** A part that opens a section: a newline, the heading, and then nothing
    or a new line.  Its heading is a line of the trimmed text. *)
Lemma section_heading_line
    (P B : list pystr) (c : N) (m : pystr) (z : N) (rest : pystr) :
  P <> [] -> is_space c = false -> is_space z = false ->
  NL ∉ (c :: m ++ [z]) ->
  (rest = [] \/ exists r, rest = NL :: r) ->
  In (c :: m ++ [z])
     (lines_of
        (strip (join [NL] (P ++ ((NL :: c :: m ++ [z]) ++ rest) :: B))
         ++ [NL])).
Proof.
  intros HP Hc Hz Hm Hrest.
  rewrite (join_app _ _ _ HP). cbn [flat_map].
  set (Bt := flat_map (fun x => [NL] ++ x) B).
  assert (HT : rest ++ Bt = [] \/ exists t, rest ++ Bt = NL :: t).
  { destruct Hrest as [-> | [r ->]]; [apply bullets_tail | right; eauto]. }
  replace (join [NL] P ++ ([NL] ++ (NL :: c :: m ++ [z]) ++ rest) ++ Bt)
    with (((join [NL] P ++ [NL]) ++ [NL]) ++ c :: (m ++ z :: (rest ++ Bt)))
    by (rewrite <- !app_assoc; simpl; now rewrite <- !app_assoc).
  rewrite (strip_around _ _ _ Hc), (rstrip_app_stop _ _ _ Hz).
  destruct (rstrip_newline_tail _ HT) as [t Ht].
  replace ((lstrip ((join [NL] P ++ [NL]) ++ [NL])
            ++ c :: m ++ z :: rstrip (rest ++ Bt)) ++ [NL])
    with (lstrip ((join [NL] P ++ [NL]) ++ [NL]) ++ (c :: m ++ [z]) ++ NL :: t).
  - apply line_in_text; [exact Hm | apply dropWhile_snoc].
  - rewrite <- Ht, <- !app_assoc. simpl. now rewrite <- !app_assoc.
Qed.

(** Where each section sits among the parts: after the header, and first
    in what it contributes. *)
Lemma parts_at_summary (data : ResumeData.t) :
  ResumeData.summary data <> [] ->
  exists P B, P <> [] /\
    parts data = P ++ ((NL :: py "Summary") ++ NL :: ResumeData.summary data) :: B.
Proof.
  intros H. apply truthy_true in H.
  exists (header data :: (if truthy (sub data) then [sub data] else [])),
         (experience_part data ++ education_part data ++ skills_part data
          ++ achievements_part data).
  split; [discriminate |]. unfold parts, summary_part. rewrite H.
  cbn [app]. now rewrite <- ?app_assoc.
Qed.

Lemma parts_at_experience (data : ResumeData.t) :
  ResumeData.experience data <> [] ->
  exists P B, P <> [] /\
    parts data = P ++ ((NL :: py "Experience") ++ []) :: B.
Proof.
  intros H.
  exists (header data :: (if truthy (sub data) then [sub data] else [])
                         ++ summary_part data),
         (flat_map experience_lines (ResumeData.experience data)
          ++ education_part data ++ skills_part data ++ achievements_part data).
  split; [discriminate |]. unfold parts, experience_part.
  destruct (ResumeData.experience data) as [|e es]; [congruence |].
  rewrite app_nil_r. cbn [app]. now rewrite <- ?app_assoc.
Qed.

Lemma parts_at_education (data : ResumeData.t) :
  ResumeData.education data <> [] ->
  exists P B, P <> [] /\
    parts data = P ++ ((NL :: py "Education") ++ []) :: B.
Proof.
  intros H.
  exists (header data :: (if truthy (sub data) then [sub data] else [])
                         ++ summary_part data ++ experience_part data),
         (flat_map education_lines (ResumeData.education data)
          ++ skills_part data ++ achievements_part data).
  split; [discriminate |]. unfold parts, education_part.
  destruct (ResumeData.education data) as [|e es]; [congruence |].
  rewrite app_nil_r. cbn [app]. now rewrite <- ?app_assoc.
Qed.

Lemma parts_at_skills (data : ResumeData.t) :
  skills_line (ResumeData.skills data) <> [] ->
  exists P B, P <> [] /\
    parts data
    = P ++ ((NL :: py "Skills")
            ++ NL :: skills_line (ResumeData.skills data)) :: B.
Proof.
  intros H.
  exists (header data :: (if truthy (sub data) then [sub data] else [])
                         ++ summary_part data ++ experience_part data
                         ++ education_part data),
         (achievements_part data).
  split; [discriminate |]. unfold parts, skills_part.
  destruct (ResumeData.skills data) as [|s sk]; [now destruct H |].
  apply truthy_true in H. rewrite H.
  cbn [app]. now rewrite <- ?app_assoc.
Qed.

(** X18: the headings of the sections are lines of the text.  A summary
    that is not empty puts the line "Summary" in the text, a non-empty
    experience or education sequence the line "Experience" or "Education",
    and a skills line that is not empty the line "Skills"; the final trim
    never removes or alters them. *)
Theorem section_headings_in_text (data : ResumeData.t) :
  (ResumeData.summary data <> [] ->
   In (py "Summary") (lines_of (_format_text_resume data)))
  /\ (ResumeData.experience data <> [] ->
      In (py "Experience") (lines_of (_format_text_resume data)))
  /\ (ResumeData.education data <> [] ->
      In (py "Education") (lines_of (_format_text_resume data)))
  /\ (skills_line (ResumeData.skills data) <> [] ->
      In (py "Skills") (lines_of (_format_text_resume data))).
Proof.
  unfold _format_text_resume. repeat split; intros H.
  - destruct (parts_at_summary data H) as (P & B & HP & ->).
    change (py "Summary") with (83 :: py "ummar" ++ [121]).
    apply section_heading_line; try reflexivity;
      [exact HP | by_evaluation | right; eauto].
  - destruct (parts_at_experience data H) as (P & B & HP & ->).
    change (py "Experience") with (69 :: py "xperienc" ++ [101]).
    apply section_heading_line; try reflexivity;
      [exact HP | by_evaluation | now left].
  - destruct (parts_at_education data H) as (P & B & HP & ->).
    change (py "Education") with (69 :: py "ducatio" ++ [110]).
    apply section_heading_line; try reflexivity;
      [exact HP | by_evaluation | now left].
  - destruct (parts_at_skills data H) as (P & B & HP & ->).
    change (py "Skills") with (83 :: py "kill" ++ [115]).
    apply section_heading_line; try reflexivity;
      [exact HP | by_evaluation | right; eauto].
Qed.

Lemma section_headings_in_text_witness :
  In (py "Skills") (lines_of (_format_text_resume ann_lee)).
Proof.
  apply (section_headings_in_text ann_lee). discriminate.
Defined.

Section DrawnHeadings.

Variable simpleSplit : pystr -> pystr -> Z -> Z -> list pystr.

Lemma draw_line_cursor_le (st : pdf_state) (line : pystr) :
  (y st <= 752)%Z -> (y (draw_line simpleSplit st line) <= 752)%Z.
Proof.
  intros Hy. unfold draw_line.
  assert (Hp : (y (page_break st) <= 752)%Z).
  { unfold page_break. destruct (y st <? 60)%Z; [cbn; lia | exact Hy]. }
  destruct (is_heading line).
  - cbn. lia.
  - rewrite fold_draw_wrapped. cbn [y]. lia.
Qed.

Lemma loop_cursor_le (ls : list pystr) (st : pdf_state) :
  (y st <= 752)%Z ->
  (y (fold_left (draw_line simpleSplit) ls st) <= 752)%Z.
Proof.
  revert st. induction ls as [|l ls IH]; intros st Hy; [exact Hy |].
  cbn [fold_left]. apply IH. now apply draw_line_cursor_le.
Qed.

Lemma draw_line_extends (st : pdf_state) (line : pystr) :
  exists ops, canvas (draw_line simpleSplit st line) = canvas st ++ ops.
Proof.
  destruct (line_starts_above_margin simpleSplit st line) as (ops & -> & _).
  unfold page_break. destruct (y st <? 60)%Z.
  - cbn [canvas]. rewrite <- app_assoc. eauto.
  - eauto.
Qed.

Lemma loop_extends (ls : list pystr) (st : pdf_state) :
  exists ops,
    canvas (fold_left (draw_line simpleSplit) ls st) = canvas st ++ ops.
Proof.
  revert st. induction ls as [|l ls IH]; intros st.
  - exists []. now rewrite app_nil_r.
  - cbn [fold_left].
    destruct (IH (draw_line simpleSplit st l)) as [ops ->].
    destruct (draw_line_extends st l) as [ops' ->].
    rewrite <- app_assoc. eauto.
Qed.

(** X19: every heading line of the text is drawn as a heading.  A line of
    the text that reads as one of the five headings once trimmed is drawn
    between a switch to Helvetica-Bold 12 and a switch back to Helvetica 11,
    with the cursor at 60 or above and at 752 at most, wherever in the text
    it stands and whatever was drawn before it. *)
Theorem heading_lines_drawn_bold (data : ResumeData.t) (line : pystr) :
  In line (lines_of (_format_text_resume data)) ->
  strip line ∈ HEADINGS ->
  exists before y0 after,
    pdf_calls simpleSplit data
    = before
      ++ [setFont (py "Helvetica-Bold") 12; drawString 40%Z y0 line;
          setFont (py "Helvetica") 11]
      ++ after
    /\ (60 <= y0 <= 752)%Z.
Proof.
  intros Hin Hh. apply in_split in Hin as (l1 & l2 & Hl).
  unfold pdf_calls, pdf_loop. rewrite Hl, fold_left_app. cbn [fold_left].
  set (st1 := fold_left (draw_line simpleSplit) l1
                (mkPdf (height - 40) [setFont (py "Helvetica-Bold") 14])).
  assert (Hy1 : (y st1 <= 752)%Z) by (apply loop_cursor_le; cbn; lia).
  destruct (loop_extends l2 (draw_line simpleSplit st1 line)) as [ops ->].
  unfold draw_line at 1. apply is_heading_spec in Hh. rewrite Hh.
  cbn [draw_heading canvas].
  exists (canvas (page_break st1)), (y (page_break st1)),
         (ops ++ [showPage; save]).
  split.
  - now rewrite <- !app_assoc.
  - split; [apply page_break_cursor |].
    unfold page_break. destruct (y st1 <? 60)%Z; [cbn; lia | exact Hy1].
Qed.

End DrawnHeadings.

Lemma heading_lines_drawn_bold_witness :
  exists before y0 after,
    pdf_calls (rl_simpleSplit helvetica) ann_lee
    = before
      ++ [setFont (py "Helvetica-Bold") 12; drawString 40%Z y0 (py "Skills");
          setFont (py "Helvetica") 11]
      ++ after
    /\ (60 <= y0 <= 752)%Z.
Proof.
  apply (heading_lines_drawn_bold (rl_simpleSplit helvetica) ann_lee
           (py "Skills")).
  - vm_compute. tauto.
  - by_evaluation.
Defined.
